(** * Mem0 MCP server: scope resolution, result normalisation, pagination

    A shallow embedding of [src/mem0_mcp_server/server.py].  Python values
    are an inductive type, dictionaries are association lists in insertion
    order (the order [dict.values()] and [json.dumps] observe), strings are
    the UTF-8 bytes of the Python [str], and the tools run in a small
    state-and-exception monad whose state records every call that reaches
    the memory backend. *)

From Stdlib Require Import List String Ascii ZArith Lia Bool.
From Stdlib Require Import SpecFloat DecimalString.
From Equations Require Import Equations.
Import ListNotations.
Local Open Scope string_scope.

(** ** Python values *)

Unset Elimination Schemes.
Inductive value : Type :=
| VNone
| VBool (b : bool)
| VInt (n : Z)
| VFloat (f : spec_float)
| VStr (s : string)
| VList (items : list value)
| VDict (entries : list (string * value)).
Set Elimination Schemes.

(** String-keyed dictionaries.  A Python [dict] holds each key once; the
    operations below keep that property and read the first entry of a key. *)
Definition dict (A : Type) : Type := list (string * A).

Fixpoint dict_lookup {A} (d : dict A) (k : string) : option A :=
  match d with
  | [] => None
  | (k', v) :: d' => if String.eqb k' k then Some v else dict_lookup d' k
  end.

(** [k in d] *)
Definition dict_has {A} (d : dict A) (k : string) : bool :=
  match dict_lookup d k with Some _ => true | None => false end.

(** [d.get(k)] *)
Definition dict_get (d : dict value) (k : string) : value :=
  match dict_lookup d k with Some v => v | None => VNone end.

(** [d.values()] *)
Definition dict_values {A} (d : dict A) : list A := map snd d.

Definition dict_keys {A} (d : dict A) : list string := map fst d.

(** [d[k] = v]: an existing key keeps its position, a new key goes last. *)
Fixpoint dict_set {A} (d : dict A) (k : string) (v : A) : dict A :=
  match d with
  | [] => [(k, v)]
  | (k', v') :: d' =>
      if String.eqb k' k then (k', v) :: d' else (k', v') :: dict_set d' k v
  end.

(** [d.pop(k, None)], the dictionary that remains. *)
Fixpoint dict_remove {A} (d : dict A) (k : string) : dict A :=
  match d with
  | [] => []
  | (k', v') :: d' =>
      if String.eqb k' k then dict_remove d' k else (k', v') :: dict_remove d' k
  end.

(** Truthiness, as [if x:] and [not x] test it. *)
Definition str_truthy (s : string) : bool :=
  match s with EmptyString => false | String _ _ => true end.

Definition truthy (v : value) : bool :=
  match v with
  | VNone => false
  | VBool b => b
  | VInt n => negb (Z.eqb n 0)
  | VFloat (S754_zero _) => false
  | VFloat _ => true
  | VStr s => str_truthy s
  | VList [] => false
  | VList (_ :: _) => true
  | VDict [] => false
  | VDict (_ :: _) => true
  end.

(** [str(n)] for an [int]. *)
Definition str_int (n : Z) : string := NilZero.string_of_int (Z.to_int n).

(** Number of constructors of a value; the measure of the traversal. *)
Fixpoint value_size (v : value) : nat :=
  match v with
  | VList items => S (list_sum (map value_size items))
  | VDict entries => S (list_sum (map (fun kv => value_size (snd kv)) entries))
  | _ => 1
  end.

Definition queue_size (queue : list value) : nat :=
  list_sum (map value_size queue).

(** The nodes a dequeued node puts at the back of the queue:
    [node.values()] for a dict, the elements for a list, nothing otherwise. *)
Definition node_children (node : value) : list value :=
  match node with
  | VDict entries => dict_values entries
  | VList items => items
  | _ => []
  end.

(** [results[start:stop]] on a list, with Python's treatment of negative
    and out-of-range bounds. *)
Definition slice_bound (len i : Z) : Z :=
  if Z.ltb i 0 then Z.max (i + len) 0 else Z.min i len.

Definition py_slice {A} (l : list A) (start stop : Z) : list A :=
  let len := Z.of_nat (List.length l) in
  let lo := slice_bound len start in
  let hi := slice_bound len stop in
  firstn (Z.to_nat (hi - lo)) (skipn (Z.to_nat lo) l).

(** ** Exceptions and the backend *)

Inductive exn : Type :=
| RuntimeError (msg : string)
| ValidationError (msg : string)
| MemoryError (message : string) (status payload : option value)
| OtherError (name : string).

(** The calls the server makes on the [Memory] client. *)
Inductive backend_call : Type :=
| client_add (conversation : value) (kwargs : dict value)
| client_search (kwargs : dict value)
| client_get_all (kwargs : dict value)
| client_delete_all (kwargs : dict value)
| client_get (memory_id : string)
| client_update (memory_id data : string)
| client_delete (memory_id : string).

(** What lies outside the server: the interpreter's [float.__repr__] and
    [json.loads] ([None] when it raises), the process environment, the
    construction of the client (building the configuration and
    [Memory.from_config]; [Some e] when it raises [e]) and the backend's
    answer to each call. *)
Record World : Type := {
  float_repr : spec_float -> string;
  json_loads : string -> option value;
  getenv : string -> option string;
  connect : option exn;
  backend : backend_call -> value + exn
}.

(** The module state: [_memory_client_instance] is set or not, and the
    calls made on the client so far, oldest first. *)
Record state : Type := {
  client_instance : bool;
  backend_calls : list backend_call
}.

Definition M (A : Type) : Type := state -> (A + exn) * state.

Definition ret {A} (a : A) : M A := fun st => (inl a, st).

Definition raise {A} (e : exn) : M A := fun st => (inr e, st).

Definition bind {A B} (c : M A) (k : A -> M B) : M B :=
  fun st =>
    match c st with
    | (inl a, st') => k a st'
    | (inr e, st') => (inr e, st')
    end.

Notation "x <- c ;; k" := (bind c (fun x => k))
  (at level 61, c at next level, right associativity).

(** ** JSON text, as [json.dumps(..., ensure_ascii=False)] writes it *)

Definition dquote : ascii := "034"%char.
Definition backslash : ascii := "092"%char.

Definition hex_digit (n : nat) : ascii :=
  nth n ["0"; "1"; "2"; "3"; "4"; "5"; "6"; "7"; "8"; "9";
         "a"; "b"; "c"; "d"; "e"; "f"]%char "0"%char.

(** One character of a string: the quote, the backslash and the control
    characters below 0x20 are escaped, every other byte is copied. *)
Definition escape_char (c : ascii) : string :=
  let n := nat_of_ascii c in
  if Nat.eqb n 34 then String backslash (String dquote "")
  else if Nat.eqb n 92 then String backslash (String backslash "")
  else if Nat.eqb n 8 then String backslash "b"
  else if Nat.eqb n 12 then String backslash "f"
  else if Nat.eqb n 10 then String backslash "n"
  else if Nat.eqb n 13 then String backslash "r"
  else if Nat.eqb n 9 then String backslash "t"
  else if Nat.ltb n 32 then
    String backslash
      (String "u" (String "0" (String "0"
        (String (hex_digit (n / 16)) (String (hex_digit (n mod 16)) "")))))
  else String c "".

Fixpoint escape_string (s : string) : string :=
  match s with
  | EmptyString => ""
  | String c s' => escape_char c ++ escape_string s'
  end.

Definition json_string (s : string) : string :=
  String dquote (escape_string s ++ String dquote "").

Section Server.

Variable w : World.

Definition json_float (f : spec_float) : string :=
  match f with
  | S754_nan => "NaN"
  | S754_infinity false => "Infinity"
  | S754_infinity true => "-Infinity"
  | _ => float_repr w f
  end.

Fixpoint json_dumps (v : value) : string :=
  match v with
  | VNone => "null"
  | VBool true => "true"
  | VBool false => "false"
  | VInt n => str_int n
  | VFloat f => json_float f
  | VStr s => json_string s
  | VList items => "[" ++ String.concat ", " (map json_dumps items) ++ "]"
  | VDict entries =>
      "{" ++ String.concat ", "
               (map (fun kv => json_string (fst kv) ++ ": " ++ json_dumps (snd kv))
                    entries) ++ "}"
  end.

(** ** Scope resolution *)

(** [str(value)] when [isinstance(value, (str, int, float))].  [bool] is a
    subclass of [int], so [True] and [False] pass the test as well. *)
Definition scalar_str (v : value) : option string :=
  match v with
  | VStr s => Some s
  | VInt n => Some (str_int n)
  | VBool true => Some "True"
  | VBool false => Some "False"
  | VFloat f => Some (float_repr w f)
  | _ => None
  end.

(** [_extract_id_value], server.py lines 63-79. *)
Definition _extract_id_value (value : value) : option string :=
  match scalar_str value with
  | Some s => Some s
  | None =>
      match value with
      | VDict entries =>
          match scalar_str (dict_get entries "eq") with
          | Some s => Some s
          | None =>
              match dict_get entries "in" with
              | VList (first :: _) => scalar_str first
              | _ => None
              end
          end
      | _ => None
      end
  end.

(** The test made on a dequeued node (lines 89-93): a dict holding the key
    [user_id] whose value extracts to a non-empty string ends the search. *)
Definition node_match (node : value) : option string :=
  match node with
  | VDict entries =>
      if dict_has entries "user_id" then
        match _extract_id_value (dict_get entries "user_id") with
        | Some extracted => if str_truthy extracted then Some extracted else None
        | None => None
        end
      else None
  | _ => None
  end.

(** The [while queue:] loop of [_extract_user_id] (lines 87-98):
    [queue.pop(0)] takes the head, [queue.extend] appends at the back. *)
Equations? scan_queue (queue : list value) (default_user_id : string) : string
  by wf (queue_size queue) lt :=
  scan_queue [] default_user_id := default_user_id;
  scan_queue (node :: queue) default_user_id :=
    match node_match node with
    | Some extracted => extracted
    | None => scan_queue (queue ++ node_children node) default_user_id
    end.
Proof.
  unfold queue_size. rewrite map_app, list_sum_app. simpl.
  assert (list_sum (map value_size (node_children node)) < value_size node).
  { destruct node; simpl; try lia. unfold dict_values. rewrite map_map. lia. }
  lia.
Qed.

(** [_extract_user_id], server.py lines 82-98.  [filters] is [VNone] when
    the caller passed no filters. *)
Definition _extract_user_id (filters : value) (default_user_id : string) : string :=
  if negb (truthy filters) then default_user_id
  else scan_queue [filters] default_user_id.

(** ** Result normalisation *)

(** One call on the client: it is recorded, then the backend answers. *)
Definition client_call (c : backend_call) : M value :=
  fun st =>
    (backend w c,
     {| client_instance := client_instance st;
        backend_calls := (backend_calls st ++ [c])%list |}).

(** [getattr(exc, name, None)] *)
Definition attr_or_none (attr : option value) : value :=
  match attr with Some v => v | None => VNone end.

(** [_mem0_call], server.py lines 101-117; [func] stands for the call
    [func( *args, **kwargs)].  Only [MemoryError] is caught. *)
Definition _mem0_call (func : M value) : M string :=
  fun st =>
    match func st with
    | (inr (MemoryError message status payload), st') =>
        (inl (json_dumps
                (VDict [("error", VStr message);
                        ("status", attr_or_none status);
                        ("payload", attr_or_none payload)])), st')
    | (inr e, st') => (inr e, st')
    | (inl result, st') =>
        let result :=
          match result with
          | VList _ => VDict [("results", result)]
          | _ => result
          end in
        (inl (json_dumps result), st')
    end.

(** ** Configuration *)

Record SessionConfig : Type := {
  default_user_id : option string;
  enable_graph_default : option bool
}.

Record Context : Type := { session_config : option SessionConfig }.

(** [_config_value], lines 55-60: a field of the session configuration,
    [None] when there is no configuration or the field is not set. *)
Definition _config_value {A} (source : option SessionConfig)
    (field : SessionConfig -> option A) : option A :=
  match source with
  | None => None
  | Some src => field src
  end.

Definition ENV_DEFAULT_USER_ID : string :=
  match getenv w "MEM0_DEFAULT_USER_ID" with Some s => s | None => "mem0-mcp" end.

Definition ascii_lower (c : ascii) : ascii :=
  let n := nat_of_ascii c in
  if Nat.leb 65 n && Nat.leb n 90 then ascii_of_nat (n + 32) else c.

Fixpoint str_lower (s : string) : string :=
  match s with
  | EmptyString => ""
  | String c s' => String (ascii_lower c) (str_lower s')
  end.

Definition ENV_ENABLE_GRAPH_DEFAULT : bool :=
  let flag :=
    str_lower (match getenv w "MEM0_ENABLE_GRAPH_DEFAULT" with
               | Some s => s
               | None => "false"
               end) in
  String.eqb flag "1" || String.eqb flag "true" || String.eqb flag "yes".

(** [_resolve_settings], lines 120-127. *)
Definition _resolve_settings (ctx : option Context) : string * bool :=
  let session_config :=
    match ctx with Some c => session_config c | None => None end in
  let default_user :=
    match _config_value session_config default_user_id with
    | Some s => if str_truthy s then s else ENV_DEFAULT_USER_ID
    | None => ENV_DEFAULT_USER_ID
    end in
  let enable_graph_default :=
    match _config_value session_config enable_graph_default with
    | Some b => b
    | None => ENV_ENABLE_GRAPH_DEFAULT
    end in
  (default_user, enable_graph_default).

(** [_mem0_client], lines 131-180: the client is built on first use and
    kept; without [OPENAI_API_KEY] the call raises. *)
Definition _mem0_client : M unit :=
  fun st =>
    if client_instance st then (inl tt, st)
    else
      match getenv w "OPENAI_API_KEY" with
      | Some (String _ _) =>
          match connect w with
          | Some e => (inr e, st)
          | None =>
              (inl tt, {| client_instance := true;
                          backend_calls := backend_calls st |})
          end
      | _ =>
          (inr (RuntimeError
                  "OPENAI_API_KEY is required to initialize self-hosted Mem0 (used by both LLM and embedder)."),
           st)
      end.

(** [_default_enable_graph], lines 183-186. *)
Definition _default_enable_graph (enable_graph : option bool) (default : bool) : bool :=
  match enable_graph with
  | None => default
  | Some b => b
  end.

(** ** Tool arguments *)

(** The [schemas] module that declares the argument classes is not among
    the sources.  Section 3 of the specification describes them as one
    validated, immutable struct per tool, "converted to a plain key-value
    payload with empty/absent fields elided"; each class is modelled as a
    record of optional fields in the order the server passes them, and
    [model_dump(exclude_none=True)] lists the fields that are not [None]. *)

(** Modelled from the spec: [ToolMessage] of the absent [schemas] module, a
    turn of the "structured conversation history with role/content". *)
Record ToolMessage : Type := { role : string; content : string }.

(** Modelled from the spec: [AddMemoryArgs] of the absent [schemas] module,
    the fields [add_memory] passes (section 6). *)
Record AddMemoryArgs : Type := {
  add_text : option string;
  add_messages : option (list ToolMessage);
  add_user_id : option string;
  add_agent_id : option string;
  add_app_id : option string;
  add_run_id : option string;
  add_metadata : option (dict value);
  add_enable_graph : option bool
}.

(** Modelled from the spec: [SearchMemoriesArgs] of the absent [schemas]
    module. *)
Record SearchMemoriesArgs : Type := {
  search_query : string;
  search_filters : option (dict value);
  search_limit : option Z;
  search_enable_graph : option bool
}.

(** Modelled from the spec: [GetMemoriesArgs] of the absent [schemas]
    module. *)
Record GetMemoriesArgs : Type := {
  get_filters : option (dict value);
  get_page : option Z;
  get_page_size : option Z;
  get_enable_graph : option bool
}.

(** Modelled from the spec: [DeleteAllArgs] of the absent [schemas]
    module. *)
Record DeleteAllArgs : Type := {
  da_user_id : option string;
  da_agent_id : option string;
  da_app_id : option string;
  da_run_id : option string
}.

(** Modelled from the spec: [DeleteEntitiesArgs] of the absent [schemas]
    module. *)
Record DeleteEntitiesArgs : Type := {
  de_user_id : option string;
  de_agent_id : option string;
  de_app_id : option string;
  de_run_id : option string
}.

(** One field of a dumped model: present unless it is [None]. *)
Definition field {A} (name : string) (to_value : A -> value) (x : option A)
    : dict value :=
  match x with
  | Some a => [(name, to_value a)]
  | None => []
  end.

Definition ToolMessage_dump (m : ToolMessage) : value :=
  VDict [("role", VStr (role m)); ("content", VStr (content m))].

(** Modelled from the spec: the constructor [ToolMessage( **msg)] of the
    absent [schemas] module; a turn needs both its [role] and its
    [content], and validation fails without one of them. *)
Definition ToolMessage_new (msg : dict string) : M ToolMessage :=
  match dict_lookup msg "role", dict_lookup msg "content" with
  | Some r, Some c => ret {| role := r; content := c |}
  | _, _ => raise (ValidationError "ToolMessage")
  end.

Definition AddMemoryArgs_dump (a : AddMemoryArgs) : dict value :=
  List.concat
    [field "text" VStr (add_text a);
     field "messages" (fun ms => VList (map ToolMessage_dump ms)) (add_messages a);
     field "user_id" VStr (add_user_id a);
     field "agent_id" VStr (add_agent_id a);
     field "app_id" VStr (add_app_id a);
     field "run_id" VStr (add_run_id a);
     field "metadata" VDict (add_metadata a);
     field "enable_graph" VBool (add_enable_graph a)].

Definition SearchMemoriesArgs_dump (a : SearchMemoriesArgs) : dict value :=
  List.concat
    [[("query", VStr (search_query a))];
     field "filters" VDict (search_filters a);
     field "limit" VInt (search_limit a);
     field "enable_graph" VBool (search_enable_graph a)].

Definition GetMemoriesArgs_dump (a : GetMemoriesArgs) : dict value :=
  List.concat
    [field "filters" VDict (get_filters a);
     field "page" VInt (get_page a);
     field "page_size" VInt (get_page_size a);
     field "enable_graph" VBool (get_enable_graph a)].

Definition DeleteAllArgs_dump (a : DeleteAllArgs) : dict value :=
  List.concat
    [field "user_id" VStr (da_user_id a);
     field "agent_id" VStr (da_agent_id a);
     field "app_id" VStr (da_app_id a);
     field "run_id" VStr (da_run_id a)].

(** ** Tools *)

(** Truthiness of an [Optional[str]] and of an [Optional[int]]. *)
Definition opt_truthy (x : option string) : bool :=
  match x with Some s => str_truthy s | None => false end.

Definition int_truthy (x : option Z) : bool :=
  match x with Some n => negb (Z.eqb n 0) | None => false end.

(** [x or d] on an [Optional[int]]. *)
Definition int_or (x : option Z) (d : Z) : Z :=
  if int_truthy x then match x with Some n => n | None => d end else d.

(** The int a popped payload entry holds, [None] when the key was absent. *)
Definition as_int (v : value) : option Z :=
  match v with VInt n => Some n | _ => None end.

Fixpoint map_M {A B} (f : A -> M B) (l : list A) : M (list B) :=
  match l with
  | [] => ret []
  | a :: l' => b <- f a ;; bs <- map_M f l' ;; ret (b :: bs)
  end.

Definition error_json (code detail : string) : string :=
  json_dumps (VDict [("error", VStr code); ("detail", VStr detail)]).

(** [[ToolMessage( **msg) for msg in messages] if messages else None],
    line 251. *)
Definition tool_messages_of (messages : option (list (dict string)))
    : M (option (list ToolMessage)) :=
  match messages with
  | Some (msg :: msgs) =>
      ms <- map_M ToolMessage_new (msg :: msgs) ;; ret (Some ms)
  | _ => ret None
  end.

(** [add_memory], lines 205-279. *)
Definition add_memory (text : string) (messages : option (list (dict string)))
    (user_id agent_id app_id run_id : option string)
    (metadata : option (dict value)) (enable_graph : option bool)
    (ctx : option Context) : M string :=
  let '(default_user, graph_default) := _resolve_settings ctx in
  tool_messages <- tool_messages_of messages ;;
  let args :=
    {| add_text := Some text;
       add_messages := tool_messages;
       add_user_id :=
         if opt_truthy user_id then user_id
         else if negb (opt_truthy agent_id || opt_truthy run_id)
              then Some default_user else None;
       add_agent_id := agent_id;
       add_app_id := app_id;
       add_run_id := run_id;
       add_metadata := metadata;
       add_enable_graph := Some (_default_enable_graph enable_graph graph_default) |} in
  let payload := AddMemoryArgs_dump args in
  let payload := dict_remove payload "enable_graph" in
  let payload := dict_remove payload "app_id" in
  let conversation := dict_get payload "messages" in
  let payload := dict_remove payload "messages" in
  if negb (truthy conversation) then
    let derived_text := dict_get payload "text" in
    let payload := dict_remove payload "text" in
    if truthy derived_text then
      let conversation :=
        VList [VDict [("role", VStr "user"); ("content", derived_text)]] in
      _ <- _mem0_client ;;
      _mem0_call (client_call (client_add conversation payload))
    else
      ret (error_json "messages_missing"
             "Provide either `text` or `messages` so Mem0 knows what to store.")
  else
    let payload := dict_remove payload "text" in
    _ <- _mem0_client ;;
    _mem0_call (client_call (client_add conversation payload)).

(** [search_memories], lines 294-330. *)
Definition search_memories (query : string) (filters : option (dict value))
    (limit : option Z) (enable_graph : option bool) (ctx : option Context)
    : M string :=
  let '(default_user, graph_default) := _resolve_settings ctx in
  let args :=
    {| search_query := query;
       search_filters := filters;
       search_limit := limit;
       search_enable_graph := Some (_default_enable_graph enable_graph graph_default) |} in
  let payload := SearchMemoriesArgs_dump args in
  let resolved_user_id := _extract_user_id (dict_get payload "filters") default_user in
  let payload := dict_remove payload "enable_graph" in
  let payload := dict_set payload "user_id" (VStr resolved_user_id) in
  _ <- _mem0_client ;;
  _mem0_call (client_call (client_search payload)).

(** The window [get_memories] cuts out of the fetched results, lines 400-404. *)
Definition page_window (results : list value) (requested_page requested_page_size : Z)
    : list value :=
  let page_num := Z.max requested_page 1 in
  let page_len := Z.max requested_page_size 1 in
  let start := ((page_num - 1) * page_len)%Z in
  let stop := (start + page_len)%Z in
  py_slice results start stop.

(** The [try] block of [get_memories], lines 395-407.  A failure inside it
    ([json.loads] raising, or [parsed] not being a dict and so having no
    [get]) is logged and the response is returned as it came. *)
Definition post_process (requested_page requested_page_size : option Z)
    (response : string) : string :=
  if int_truthy requested_page && int_truthy requested_page_size then
    match requested_page, requested_page_size, json_loads w response with
    | Some p, Some size, Some (VDict parsed) =>
        let parsed :=
          match dict_get parsed "results" with
          | VList results =>
              dict_set parsed "results" (VList (page_window results p size))
          | _ => parsed
          end in
        json_dumps (VDict parsed)
    | _, _, _ => response
    end
  else response.

(** [get_memories], lines 345-408. *)
Definition get_memories (filters : option (dict value)) (page page_size : option Z)
    (enable_graph : option bool) (ctx : option Context) : M string :=
  let '(default_user, graph_default) := _resolve_settings ctx in
  let args :=
    {| get_filters := filters;
       get_page := page;
       get_page_size := page_size;
       get_enable_graph := Some (_default_enable_graph enable_graph graph_default) |} in
  let payload := GetMemoriesArgs_dump args in
  let resolved_user_id := _extract_user_id (dict_get payload "filters") default_user in
  let payload := dict_remove payload "enable_graph" in
  let requested_page := as_int (dict_get payload "page") in
  let payload := dict_remove payload "page" in
  let requested_page_size := as_int (dict_get payload "page_size") in
  let payload := dict_remove payload "page_size" in
  let payload := dict_set payload "user_id" (VStr resolved_user_id) in
  let payload :=
    match requested_page_size with
    | Some size =>
        let page_num := Z.max (int_or requested_page 1) 1 in
        let fetch_limit := (page_num * size)%Z in
        dict_set payload "limit" (VInt fetch_limit)
    | None => dict_set payload "limit" (VInt 100)
    end in
  _ <- _mem0_client ;;
  response <- _mem0_call (client_call (client_get_all payload)) ;;
  ret (post_process requested_page requested_page_size response).

(** [delete_all_memories], lines 413-441. *)
Definition delete_all_memories (user_id agent_id app_id run_id : option string)
    (ctx : option Context) : M string :=
  let '(default_user, _) := _resolve_settings ctx in
  let args :=
    {| da_user_id := if opt_truthy user_id then user_id else Some default_user;
       da_agent_id := agent_id;
       da_app_id := app_id;
       da_run_id := run_id |} in
  let payload := DeleteAllArgs_dump args in
  let payload := dict_remove payload "app_id" in
  _ <- _mem0_client ;;
  _mem0_call (client_call (client_delete_all payload)).

(** [list_entities], lines 444-454. *)
Definition list_entities (ctx : option Context) : M string :=
  ret (error_json "unsupported_operation"
         "list_entities not available in self-hosted mode").

(** [get_memory], [update_memory], [delete_memory], lines 457-488. *)
Definition get_memory (memory_id : string) (ctx : option Context) : M string :=
  _ <- _mem0_client ;;
  _mem0_call (client_call (client_get memory_id)).

Definition update_memory (memory_id text : string) (ctx : option Context) : M string :=
  _ <- _mem0_client ;;
  _mem0_call (client_call (client_update memory_id text)).

Definition delete_memory (memory_id : string) (ctx : option Context) : M string :=
  _ <- _mem0_client ;;
  _mem0_call (client_call (client_delete memory_id)).

(** [delete_entities], lines 493-540. *)
Definition delete_entities (user_id agent_id app_id run_id : option string)
    (ctx : option Context) : M string :=
  let args :=
    {| de_user_id := user_id;
       de_agent_id := agent_id;
       de_app_id := app_id;
       de_run_id := run_id |} in
  if negb (existsb opt_truthy
             [de_user_id args; de_agent_id args; de_app_id args; de_run_id args]) then
    ret (error_json "scope_missing"
           "Provide user_id, agent_id, app_id, or run_id before calling delete_entities.")
  else
    match de_app_id args with
    | Some _ =>
        ret (error_json "unsupported_scope"
               "app_id scope is not available in self-hosted mode")
    | None =>
        let payload :=
          List.concat
            [field "user_id" VStr (de_user_id args);
             field "agent_id" VStr (de_agent_id args);
             field "run_id" VStr (de_run_id args)] in
        _ <- _mem0_client ;;
        _mem0_call (client_call (client_delete_all payload))
    end.

End Server.

(** ** Filter expressions, as the properties speak of them *)

(** Every node of a filter expression: the expression itself and, through
    mapping values and list elements, everything nested in it. *)
Fixpoint subnodes (v : value) : list value :=
  v :: match v with
       | VDict entries => flat_map (fun kv => subnodes (snd kv)) entries
       | VList items => flat_map subnodes items
       | _ => []
       end.

(** The value a node gives for [user_id], when the node is a mapping with
    that key. *)
Definition user_id_clause (node : value) : option value :=
  match node with
  | VDict entries => dict_lookup entries "user_id"
  | _ => None
  end.

Definition clause_values (node : value) : list value :=
  match user_id_clause node with Some v => [v] | None => [] end.

(** The [user_id] leaves of a filter expression, one per mapping that
    holds the key. *)
Definition user_id_leaves (filters : value) : list value :=
  flat_map clause_values (subnodes filters).

(** The nodes still to visit when the queue is [queue]. *)
Definition pending (queue : list value) : list value :=
  flat_map subnodes queue.

(** What a [user_id] leaf contributes to the search: its extracted string
    when there is one and it is not empty. *)
Definition leaf_owner (w : World) (leaf : value) : option string :=
  match _extract_id_value w leaf with
  | Some extracted => if str_truthy extracted then Some extracted else None
  | None => None
  end.

(** ** Sample worlds for the closed examples *)

(** [float.__repr__] on the special values.  The examples hold no finite
    float; this stand-in is only there to make their world a closed term. *)
Definition sample_float_repr (f : spec_float) : string :=
  match f with
  | S754_zero false => "0.0"
  | S754_zero true => "-0.0"
  | S754_infinity false => "inf"
  | S754_infinity true => "-inf"
  | S754_nan => "nan"
  | S754_finite _ _ _ => "1.0"
  end.

Definition sample_getenv (name : string) : option string :=
  if String.eqb name "OPENAI_API_KEY" then Some "sk-test" else None.

(** A world whose backend answers every call with [answer] and whose
    [json.loads] reads the documents listed in [documents]. *)
Definition sample_world (answer : value + exn) (documents : dict value) : World :=
  {| float_repr := sample_float_repr;
     json_loads := dict_lookup documents;
     getenv := sample_getenv;
     connect := None;
     backend := fun _ => answer |}.

Definition quiet_world : World := sample_world (inl VNone) [].

Definition fresh : state := {| client_instance := false; backend_calls := [] |}.

(** JSON text written with apostrophes in place of double quotes, to state
    the expected output of an example as one literal. *)
Fixpoint with_quotes (s : string) : string :=
  match s with
  | EmptyString => ""
  | String c s' =>
      String (if Nat.eqb (nat_of_ascii c) 39 then dquote else c) (with_quotes s')
  end.

(** ** Reading a run of a tool *)

(** The client can be had: it exists already, or the key is set and the
    construction goes through. *)
Definition client_available (w : World) (st : state) : bool :=
  client_instance st ||
  (opt_truthy (getenv w "OPENAI_API_KEY") &&
   match connect w with None => true | Some _ => false end).

(** The state after the client was obtained and [c] was called on it. *)
Definition called (st : state) (c : backend_call) : state :=
  {| client_instance := true; backend_calls := (backend_calls st ++ [c])%list |}.

(** What [_mem0_call] makes of the backend's answer. *)
Definition normalized (w : World) (answer : value + exn) : string + exn :=
  match answer with
  | inl (VList items) => inl (json_dumps w (VDict [("results", VList items)]))
  | inl result => inl (json_dumps w result)
  | inr (MemoryError message status payload) =>
      inl (json_dumps w
             (VDict [("error", VStr message);
                     ("status", attr_or_none status);
                     ("payload", attr_or_none payload)]))
  | inr e => inr e
  end.

(** The envelope a backend result is normalised to: a list is wrapped
    under [results], a mapping is its own envelope. *)
Definition envelope_of (result : value) : option (dict value) :=
  match result with
  | VList _ => Some [("results", result)]
  | VDict entries => Some entries
  | _ => None
  end.

(** The keyword arguments [get_memories] fetches with. *)
Definition fetch_limit (page page_size : option Z) : Z :=
  match page_size with
  | Some size => (Z.max (int_or page 1) 1 * size)%Z
  | None => 100%Z
  end.

Definition fetch_payload (w : World) (filters : option (dict value))
    (page page_size : option Z) (ctx : option Context) : dict value :=
  List.concat
    [field "filters" VDict filters;
     [("user_id",
       VStr (_extract_user_id w
               (match filters with Some f => VDict f | None => VNone end)
               (fst (_resolve_settings w ctx))))];
     [("limit", VInt (fetch_limit page page_size))]].

(** The keyword arguments [add_memory] calls [client.add] with. *)
Definition add_kwargs (default_user : string) (user_id agent_id run_id : option string)
    (metadata : option (dict value)) : dict value :=
  List.concat
    [field "user_id" VStr
       (if opt_truthy user_id then user_id
        else if negb (opt_truthy agent_id || opt_truthy run_id)
             then Some default_user else None);
     field "agent_id" VStr agent_id;
     field "run_id" VStr run_id;
     field "metadata" VDict metadata].


(** The integers [first], [first + 1], ... ([count] of them) as items. *)
Definition int_items (first : Z) (count : nat) : list value :=
  map (fun i => VInt (first + Z.of_nat i)) (seq 0 count).

(** ** The visiting order of the traversal *)

(** What the first node of [nodes] that ends the search returns. *)
Fixpoint first_match (w : World) (nodes : list value) : option string :=
  match nodes with
  | [] => None
  | node :: rest =>
      match node_match w node with
      | Some extracted => Some extracted
      | None => first_match w rest
      end
  end.

(** The nodes of [queue] followed by those of the next [depth - 1] levels
    below it, each level in the order of its parents. *)
Fixpoint levels (depth : nat) (queue : list value) : list value :=
  match depth with
  | 0 => []
  | S depth' => (queue ++ levels depth' (flat_map node_children queue))%list
  end.

(** ** More readings of a run *)

(** The error [_mem0_client] raises without a key. *)
Definition missing_key_error : exn :=
  RuntimeError
    "OPENAI_API_KEY is required to initialize self-hosted Mem0 (used by both LLM and embedder).".

(** The keyword arguments [search_memories] calls [client.search] with. *)
Definition search_payload (w : World) (query : string) (filters : option (dict value))
    (limit : option Z) (ctx : option Context) : dict value :=
  List.concat
    [[("query", VStr query)];
     field "filters" VDict filters;
     field "limit" VInt limit;
     [("user_id",
       VStr (_extract_user_id w
               (match filters with Some f => VDict f | None => VNone end)
               (fst (_resolve_settings w ctx))))]].

(** The keyword arguments [delete_all_memories] calls [client.delete_all]
    with. *)
Definition delete_all_payload (w : World) (user_id agent_id run_id : option string)
    (ctx : option Context) : dict value :=
  (("user_id",
    VStr (if opt_truthy user_id
          then match user_id with Some u => u | None => "" end
          else fst (_resolve_settings w ctx)))
   :: field "agent_id" VStr agent_id ++ field "run_id" VStr run_id)%list.

(** The keyword arguments [delete_entities] calls [client.delete_all] with. *)
Definition delete_entities_payload (user_id agent_id run_id : option string)
    : dict value :=
  (field "user_id" VStr user_id ++ field "agent_id" VStr agent_id
   ++ field "run_id" VStr run_id)%list.

(** A tool run adds at most one call to those made so far and keeps a
    client that was there. *)
Definition one_call_at_most (tool : M string) : Prop :=
  forall st,
    exists extra,
      List.length extra <= 1 /\
      backend_calls (snd (tool st)) = (backend_calls st ++ extra)%list /\
      (client_instance st = true -> client_instance (snd (tool st)) = true).

(** A world without any environment variable. *)
Definition bare_world : World :=
  {| float_repr := sample_float_repr;
     json_loads := fun _ => None;
     getenv := fun _ => None;
     connect := None;
     backend := fun _ => inl VNone |}.

(** The owner a session asks for, when the context carries one. *)
Definition session_owner (ctx : option Context) : option string :=
  match ctx with
  | Some c =>
      match session_config c with
      | Some cfg => default_user_id cfg
      | None => None
      end
  | None => None
  end.

(** * Properties *)

Section Traversal.

Variable w : World.

Lemma scan_queue_cons (node : value) (queue : list value) (d : string) :
  scan_queue w (node :: queue) d =
  match node_match w node with
  | Some extracted => extracted
  | None => scan_queue w (queue ++ node_children node) d
  end.
Proof. now simp scan_queue. Qed.

Lemma subnodes_children (v : value) :
  subnodes v = v :: pending (node_children v).
Proof.
  destruct v; try reflexivity.
  simpl. f_equal. unfold pending, dict_values.
  induction entries as [|[k x] entries IH]; simpl; [reflexivity | now rewrite IH].
Qed.

Lemma pending_step (n node : value) (queue : list value) :
  In n (pending (node :: queue)) <->
  n = node \/ In n (pending (queue ++ node_children node)).
Proof.
  unfold pending at 1. simpl. rewrite subnodes_children.
  fold (pending queue). unfold pending at 3. rewrite flat_map_app.
  fold (pending queue) (pending (node_children node)).
  simpl. rewrite !in_app_iff. intuition congruence.
Qed.

Lemma queue_size_step (node : value) (queue : list value) :
  queue_size (queue ++ node_children node) < queue_size (node :: queue).
Proof.
  unfold queue_size. rewrite map_app, list_sum_app. simpl.
  assert (list_sum (map value_size (node_children node)) < value_size node).
  { destruct node; simpl; try lia. unfold dict_values. rewrite map_map. lia. }
  lia.
Qed.

(** When no pending node matches, the loop runs the queue dry and the
    default comes back. *)
Lemma scan_queue_default (d : string) (queue : list value) :
  (forall n, In n (pending queue) -> node_match w n = None) ->
  scan_queue w queue d = d.
Proof.
  remember (queue_size queue) as m eqn:Hm. revert queue Hm.
  induction m as [m IH] using lt_wf_ind. intros [|node queue] Hm Hnone.
  - now simp scan_queue.
  - rewrite scan_queue_cons.
    rewrite (Hnone node) by (apply pending_step; now left).
    apply (IH (queue_size (queue ++ node_children node))).
    + subst m. apply queue_size_step.
    + reflexivity.
    + intros n Hn. apply Hnone, pending_step. now right.
Qed.

(** When some pending node matches and all matching nodes agree on the
    string, the loop returns that string, whatever the visiting order. *)
Lemma scan_queue_found (d s : string) (queue : list value) :
  (exists n, In n (pending queue) /\ node_match w n = Some s) ->
  (forall n s', In n (pending queue) -> node_match w n = Some s' -> s' = s) ->
  scan_queue w queue d = s.
Proof.
  remember (queue_size queue) as m eqn:Hm. revert queue Hm.
  induction m as [m IH] using lt_wf_ind. intros [|node queue] Hm [n [Hin Hn]] Hsame.
  - destruct Hin.
  - rewrite scan_queue_cons. destruct (node_match w node) as [s'|] eqn:Hnode.
    + apply (Hsame node); [apply pending_step; now left | exact Hnode].
    + apply (IH (queue_size (queue ++ node_children node))).
      * subst m. apply queue_size_step.
      * reflexivity.
      * exists n. split; [|exact Hn].
        apply pending_step in Hin. destruct Hin as [->|Hin]; [congruence | exact Hin].
      * intros n' s' Hin'. apply Hsame, pending_step. now right.
Qed.

Lemma node_match_clause (node : value) :
  node_match w node =
  match user_id_clause node with
  | Some leaf => leaf_owner w leaf
  | None => None
  end.
Proof.
  destruct node; try reflexivity.
  unfold node_match, user_id_clause, dict_has, dict_get, leaf_owner.
  destruct (dict_lookup entries "user_id"); reflexivity.
Qed.

Lemma clause_in_leaves (filters node leaf : value) :
  In node (subnodes filters) -> user_id_clause node = Some leaf ->
  In leaf (user_id_leaves filters).
Proof.
  intros Hin Hc. apply in_flat_map. exists node. split; [exact Hin|].
  unfold clause_values. rewrite Hc. now left.
Qed.

Lemma leaf_has_clause (filters leaf : value) :
  In leaf (user_id_leaves filters) ->
  exists node, In node (subnodes filters) /\ user_id_clause node = Some leaf.
Proof.
  intros Hin. apply in_flat_map in Hin. destruct Hin as [node [Hnode Hleaf]].
  exists node. split; [exact Hnode|].
  unfold clause_values in Hleaf. destruct (user_id_clause node); simpl in Hleaf.
  - destruct Hleaf as [->|[]]. reflexivity.
  - destruct Hleaf.
Qed.

Lemma pending_singleton (filters : value) : pending [filters] = subnodes filters.
Proof. unfold pending. simpl. apply app_nil_r. Qed.

(** A falsy value is a scalar, an empty list or an empty mapping: it holds
    no [user_id] leaf. *)
Lemma falsy_no_leaves (filters : value) :
  truthy filters = false -> user_id_leaves filters = [].
Proof.
  destruct filters as [| | |f|s|[|x items]|[|kv entries]]; simpl; intros H;
    try reflexivity; discriminate.
Qed.

(** [_extract_user_id] when no leaf contributes an owner. *)
Lemma extract_user_id_default (filters : value) (d : string) :
  (forall leaf, In leaf (user_id_leaves filters) -> leaf_owner w leaf = None) ->
  _extract_user_id w filters d = d.
Proof.
  intros Hnone. unfold _extract_user_id.
  destruct (truthy filters); simpl; [|reflexivity].
  apply scan_queue_default. intros n Hn. rewrite pending_singleton in Hn.
  rewrite node_match_clause. destruct (user_id_clause n) as [leaf|] eqn:Hc; [|reflexivity].
  apply Hnone. eapply clause_in_leaves; eassumption.
Qed.

(** [_extract_user_id] when the leaves that contribute an owner agree. *)
Lemma extract_user_id_found (filters : value) (d s : string) :
  (exists leaf, In leaf (user_id_leaves filters) /\ leaf_owner w leaf = Some s) ->
  (forall leaf s', In leaf (user_id_leaves filters) ->
                   leaf_owner w leaf = Some s' -> s' = s) ->
  _extract_user_id w filters d = s.
Proof.
  intros [leaf [Hin Hleaf]] Hsame. unfold _extract_user_id.
  destruct (truthy filters) eqn:Ht; simpl.
  - apply scan_queue_found.
    + destruct (leaf_has_clause _ _ Hin) as [node [Hnode Hc]].
      exists node. rewrite pending_singleton, node_match_clause, Hc. now split.
    + intros n s' Hn. rewrite pending_singleton in Hn.
      rewrite node_match_clause. destruct (user_id_clause n) as [leaf'|] eqn:Hc;
        [|discriminate].
      apply Hsame. eapply clause_in_leaves; eassumption.
  - rewrite (falsy_no_leaves _ Ht) in Hin. destruct Hin.
Qed.

End Traversal.

(** ** Scope resolution *)

(** C1 fails as stated: the single [user_id] leaf of [{"user_id": ""}]
    extracts to the empty string, and the default owner comes back. *)
Lemma extract_user_id_empty_leaf_counterexample :
  user_id_leaves (VDict [("user_id", VStr "")]) = [VStr ""] /\
  _extract_id_value quiet_world (VStr "") = Some "" /\
  _extract_user_id quiet_world (VDict [("user_id", VStr "")]) "mem0-mcp" = "mem0-mcp" /\
  "mem0-mcp" <> "".
Proof. repeat split; try reflexivity; discriminate. Qed.

(** C1, amended: a filter expression with exactly one [user_id] leaf
    resolves to the string extracted from that leaf whenever that string is
    not empty; a scalar extracts as its string form, a mapping with [eq]
    holding a scalar as that scalar's string form, a mapping with [in]
    holding a list that starts with a scalar as that scalar's string form.
    A filter expression without a [user_id] leaf, and an empty or absent
    one, resolves to the default owner. *)
Theorem extract_user_id_single_leaf (w : World) (filters : value) (default_owner : string) :
  (forall leaf s,
      user_id_leaves filters = [leaf] ->
      _extract_id_value w leaf = Some s -> s <> "" ->
      _extract_user_id w filters default_owner = s) /\
  (user_id_leaves filters = [] ->
   _extract_user_id w filters default_owner = default_owner) /\
  (truthy filters = false ->
   _extract_user_id w filters default_owner = default_owner) /\
  (forall v s, scalar_str w v = Some s -> _extract_id_value w v = Some s) /\
  (forall entries v s,
      dict_lookup entries "eq" = Some v -> scalar_str w v = Some s ->
      _extract_id_value w (VDict entries) = Some s) /\
  (forall entries first rest s,
      scalar_str w (dict_get entries "eq") = None ->
      dict_lookup entries "in" = Some (VList (first :: rest)) ->
      scalar_str w first = Some s ->
      _extract_id_value w (VDict entries) = Some s).
Proof.
  repeat split.
  - intros leaf s Hleaves Hs Hne. apply extract_user_id_found.
    + exists leaf. rewrite Hleaves. split; [now left|].
      unfold leaf_owner. rewrite Hs. destruct s; [congruence | reflexivity].
    + intros leaf' s' Hin. rewrite Hleaves in Hin. destruct Hin as [<-|[]].
      unfold leaf_owner. rewrite Hs. destruct (str_truthy s); congruence.
  - intros Hleaves. apply extract_user_id_default. rewrite Hleaves. intros leaf [].
  - intros Hfalsy. unfold _extract_user_id. now rewrite Hfalsy.
  - intros v s Hs. unfold _extract_id_value. now rewrite Hs.
  - intros entries v s Hv Hs. unfold _extract_id_value, dict_get. simpl.
    now rewrite Hv, Hs.
  - intros entries first rest s Heq Hin Hs. unfold _extract_id_value. simpl.
    rewrite Heq. unfold dict_get at 1. now rewrite Hin.
Qed.

Lemma extract_user_id_single_leaf_witness :
  _extract_user_id quiet_world
    (VDict [("AND", VList [VDict [("created_at", VDict [("gte", VStr "2024-01-01")])];
                           VDict [("user_id", VDict [("in", VList [VStr "a"; VStr "b"])])]])])
    "default" = "a".
Proof.
  apply (proj1 (extract_user_id_single_leaf quiet_world _ "default")
           (VDict [("in", VList [VStr "a"; VStr "b"])]) "a").
  - reflexivity.
  - reflexivity.
  - discriminate.
Defined.

(** C10: a [user_id] leaf whose extracted value is the empty string is no
    match.  The loop goes on past the mapping that holds it, putting the
    mapping's values at the back of the queue, and when no [user_id] leaf of
    the filter expression extracts a non-empty string the default owner is
    returned. *)
Theorem extract_user_id_skips_empty (w : World) (filters : value) (default_owner : string) :
  (forall entries leaf queue,
      dict_lookup entries "user_id" = Some leaf ->
      _extract_id_value w leaf = Some "" ->
      scan_queue w (VDict entries :: queue) default_owner =
      scan_queue w (queue ++ dict_values entries) default_owner) /\
  ((forall leaf s, In leaf (user_id_leaves filters) ->
                   _extract_id_value w leaf = Some s -> s = "") ->
   _extract_user_id w filters default_owner = default_owner).
Proof.
  split.
  - intros entries leaf queue Hleaf Hempty. rewrite scan_queue_cons.
    rewrite node_match_clause. simpl. rewrite Hleaf. unfold leaf_owner.
    now rewrite Hempty.
  - intros Hall. apply extract_user_id_default. intros leaf Hin.
    unfold leaf_owner. destruct (_extract_id_value w leaf) as [s|] eqn:Hs; [|reflexivity].
    now rewrite (Hall leaf s Hin Hs).
Qed.

Lemma extract_user_id_skips_empty_witness :
  _extract_user_id quiet_world
    (VDict [("AND", VList [VDict [("user_id", VStr "")];
                           VDict [("user_id", VDict [("eq", VStr "")])]])])
    "mem0-mcp" = "mem0-mcp".
Proof.
  apply (proj2 (extract_user_id_skips_empty quiet_world _ "mem0-mcp")).
  intros leaf s [<-|[<-|[]]] H; vm_compute in H; congruence.
Defined.

(** ** Running a tool *)

Section Runs.

Variable w : World.

Lemma mem0_client_available (st : state) :
  client_available w st = true ->
  _mem0_client w st =
  (inl tt, {| client_instance := true; backend_calls := backend_calls st |}).
Proof.
  unfold client_available, _mem0_client, opt_truthy. destruct st as [[|] calls]; simpl.
  - reflexivity.
  - destruct (getenv w "OPENAI_API_KEY") as [[|c k]|]; simpl; try discriminate.
    destruct (connect w); [discriminate | reflexivity].
Qed.

Lemma mem0_client_unavailable (st : state) :
  client_available w st = false ->
  exists e, _mem0_client w st = (inr e, st).
Proof.
  unfold client_available, _mem0_client, opt_truthy. destruct st as [[|] calls]; simpl.
  - discriminate.
  - destruct (getenv w "OPENAI_API_KEY") as [[|c k]|]; simpl; eauto.
    destruct (connect w); [eauto | discriminate].
Qed.

Lemma mem0_call_client_call (c : backend_call) (st : state) :
  _mem0_call w (client_call w c) st =
  (normalized w (backend w c),
   {| client_instance := client_instance st;
      backend_calls := backend_calls st ++ [c] |}).
Proof.
  unfold _mem0_call, client_call, normalized.
  destruct (backend w c) as [[]|[]]; reflexivity.
Qed.

(** Obtaining the client and making one normalised call on it. *)
Lemma backend_run {A} (c : backend_call) (k : string -> M A) (st : state) :
  client_available w st = true ->
  (_ <- _mem0_client w ;; response <- _mem0_call w (client_call w c) ;; k response) st =
  match normalized w (backend w c) with
  | inl response => k response (called st c)
  | inr e => (inr e, called st c)
  end.
Proof.
  intros Hready. unfold bind. rewrite (mem0_client_available _ Hready).
  rewrite mem0_call_client_call. unfold called. simpl.
  destruct (normalized w (backend w c)); reflexivity.
Qed.

Lemma backend_run_last (c : backend_call) (st : state) :
  client_available w st = true ->
  (_ <- _mem0_client w ;; _mem0_call w (client_call w c)) st =
  (normalized w (backend w c), called st c).
Proof.
  intros Hready. unfold bind. rewrite (mem0_client_available _ Hready).
  now rewrite mem0_call_client_call.
Qed.

(** Without a client the call raises and nothing reaches the backend. *)
Lemma backend_run_unavailable {A} (k : unit -> M A) (st : state) :
  client_available w st = false ->
  snd ((x <- _mem0_client w ;; k x) st) = st.
Proof.
  intros Hnot. destruct (mem0_client_unavailable _ Hnot) as [e He].
  unfold bind. now rewrite He.
Qed.

Lemma get_memories_run (filters : option (dict value)) (page page_size : option Z)
    (enable_graph : option bool) (ctx : option Context) (st : state) :
  client_available w st = true ->
  get_memories w filters page page_size enable_graph ctx st =
  let c := client_get_all (fetch_payload w filters page page_size ctx) in
  match normalized w (backend w c) with
  | inl response => (inl (post_process w page page_size response), called st c)
  | inr e => (inr e, called st c)
  end.
Proof.
  intros Hready. unfold get_memories, fetch_payload.
  destruct (_resolve_settings w ctx) as [default_user graph_default].
  rewrite (backend_run _ _ _ Hready).
  destruct filters, page, page_size; reflexivity.
Qed.

Lemma get_memories_unavailable (filters : option (dict value)) (page page_size : option Z)
    (enable_graph : option bool) (ctx : option Context) (st : state) :
  client_available w st = false ->
  snd (get_memories w filters page page_size enable_graph ctx st) = st.
Proof.
  intros Hnot. unfold get_memories.
  destruct (_resolve_settings w ctx) as [default_user graph_default].
  now apply backend_run_unavailable.
Qed.

End Runs.

(** ** Result normalisation *)

Lemma escape_char_non_ascii (c : ascii) :
  128 <= nat_of_ascii c -> escape_char c = String c "".
Proof.
  intros Hc. unfold escape_char.
  repeat match goal with
         | |- context [Nat.eqb ?a ?b] => destruct (Nat.eqb_spec a b); [lia|]
         end.
  destruct (Nat.ltb_spec (nat_of_ascii c) 32); [lia | reflexivity].
Qed.

Lemma escape_string_non_ascii (s : string) :
  (forall c, In c (list_ascii_of_string s) -> 128 <= nat_of_ascii c) ->
  escape_string s = s.
Proof.
  induction s as [|c s IH]; simpl; intros Hs; [reflexivity|].
  rewrite escape_char_non_ascii by (apply Hs; now left).
  simpl. f_equal. apply IH. intros c' Hc'. apply Hs. now right.
Qed.

(** The text of the three documents of the normaliser, and of a string
    with a line feed, a quote and the two bytes of a non-ASCII letter. *)
Example json_dumps_results_text :
  json_dumps quiet_world
    (VDict [("results", VList [VDict [("id", VStr "1"); ("memory", VStr "hello")]])]) =
  with_quotes "{'results': [{'id': '1', 'memory': 'hello'}]}".
Proof. reflexivity. Qed.

Example json_dumps_error_text :
  json_dumps quiet_world
    (VDict [("error", VStr "X"); ("status", VInt 404); ("payload", VNone)]) =
  with_quotes "{'error': 'X', 'status': 404, 'payload': null}".
Proof. reflexivity. Qed.

Example json_dumps_escapes_text :
  json_dumps quiet_world
    (VStr (String "010" (String dquote (String "195" (String "169" ""))))) =
  String dquote
    (String backslash
       (String "n"
          (String backslash
             (String dquote (String "195" (String "169" (String dquote ""))))))).
Proof. reflexivity. Qed.

(** C3: [_mem0_call] wraps a list result under [results], passes a mapping
    through unchanged and turns a [MemoryError] into the serialised
    [{"error": message, "status": status or null, "payload": payload or
    null}] instead of raising; the JSON text copies every non-ASCII byte of
    a string as it is. *)
Theorem mem0_call_normalizes (w : World) (func : M value) (st st' : state) :
  (forall items,
      func st = (inl (VList items), st') ->
      _mem0_call w func st =
      (inl (json_dumps w (VDict [("results", VList items)])), st')) /\
  (forall entries,
      func st = (inl (VDict entries), st') ->
      _mem0_call w func st = (inl (json_dumps w (VDict entries)), st')) /\
  (forall message status payload,
      func st = (inr (MemoryError message status payload), st') ->
      _mem0_call w func st =
      (inl (json_dumps w
              (VDict [("error", VStr message);
                      ("status", match status with Some v => v | None => VNone end);
                      ("payload", match payload with Some v => v | None => VNone end)])),
       st')) /\
  (forall c, 128 <= nat_of_ascii c -> escape_char c = String c "") /\
  (forall s,
      (forall c, In c (list_ascii_of_string s) -> 128 <= nat_of_ascii c) ->
      json_dumps w (VStr s) = String dquote (s ++ String dquote "")).
Proof.
  repeat split.
  - intros items H. unfold _mem0_call. now rewrite H.
  - intros entries H. unfold _mem0_call. now rewrite H.
  - intros message status payload H. unfold _mem0_call. now rewrite H.
  - apply escape_char_non_ascii.
  - intros s Hs. simpl. unfold json_string. now rewrite escape_string_non_ascii.
Qed.

Lemma mem0_call_normalizes_witness :
  let w := sample_world (inl (VList [VDict [("id", VStr "1"); ("memory", VStr "hello")]])) [] in
  _mem0_call w (client_call w (client_get "1")) fresh =
  (inl (json_dumps w
          (VDict [("results",
                   VList [VDict [("id", VStr "1"); ("memory", VStr "hello")]])])),
   {| client_instance := false; backend_calls := [client_get "1"] |}).
Proof.
  intros w.
  apply (proj1 (mem0_call_normalizes w (client_call w (client_get "1")) fresh
                  {| client_instance := false; backend_calls := [client_get "1"] |})).
  reflexivity.
Defined.

(** ** Pagination and deletion *)

(** C5: [get_memories] fetches with [limit = 100] when [page_size] is
    absent and with [limit = max(page or 1, 1) * page_size] when it is
    present; the fetch is the one call made on the client (none is made
    when the client cannot be had). *)
Theorem get_memories_fetch_limit (w : World) (filters : option (dict value))
    (page page_size : option Z) (enable_graph : option bool)
    (ctx : option Context) (st : state) :
  exists kwargs,
    dict_lookup kwargs "limit" =
      Some (VInt (match page_size with
                  | None => 100
                  | Some size =>
                      Z.max (match page with
                             | Some p => if Z.eqb p 0 then 1 else p
                             | None => 1
                             end) 1 * size
                  end)) /\
    backend_calls (snd (get_memories w filters page page_size enable_graph ctx st)) =
    (backend_calls st ++
     if client_available w st then [client_get_all kwargs] else [])%list.
Proof.
  exists (fetch_payload w filters page page_size ctx). split.
  - unfold fetch_payload, fetch_limit, int_or, int_truthy.
    destruct filters, page_size, page as [p|]; try destruct (Z.eqb p 0); reflexivity.
  - destruct (client_available w st) eqn:Hready.
    + rewrite get_memories_run by exact Hready. cbv zeta.
      destruct (normalized w _); reflexivity.
    + rewrite get_memories_unavailable by exact Hready. now rewrite app_nil_r.
Qed.

(** C8: [delete_entities] without any scope returns the [scope_missing]
    error envelope and leaves the state as it was: no client is built and
    no call reaches the backend. *)
Theorem delete_entities_scope_missing (w : World)
    (user_id agent_id app_id run_id : option string)
    (ctx : option Context) (st : state) :
  opt_truthy user_id = false -> opt_truthy agent_id = false ->
  opt_truthy app_id = false -> opt_truthy run_id = false ->
  delete_entities w user_id agent_id app_id run_id ctx st =
  (inl (json_dumps w
          (VDict [("error", VStr "scope_missing");
                  ("detail",
                   VStr "Provide user_id, agent_id, app_id, or run_id before calling delete_entities.")])),
   st).
Proof.
  intros Hu Ha Hp Hr. unfold delete_entities. simpl. now rewrite Hu, Ha, Hp, Hr.
Qed.

Lemma delete_entities_scope_missing_witness :
  delete_entities quiet_world None None None None None fresh =
  (inl (json_dumps quiet_world
          (VDict [("error", VStr "scope_missing");
                  ("detail",
                   VStr "Provide user_id, agent_id, app_id, or run_id before calling delete_entities.")])),
   fresh).
Proof.
  apply (delete_entities_scope_missing quiet_world None None None None None fresh);
    reflexivity.
Defined.

Section Deletion.

Variable w : World.

Lemma delete_all_memories_calls (user_id agent_id app_id run_id : option string)
    (ctx : option Context) (st : state) :
  backend_calls (snd (delete_all_memories w user_id agent_id app_id run_id ctx st)) =
  (backend_calls st ++
   if client_available w st then
     [client_delete_all
        (("user_id",
          VStr (if opt_truthy user_id
                then match user_id with Some u => u | None => "" end
                else fst (_resolve_settings w ctx)))
         :: field "agent_id" VStr agent_id ++ field "run_id" VStr run_id)]
   else [])%list.
Proof.
  unfold delete_all_memories.
  destruct (_resolve_settings w ctx) as [default_user graph_default]. simpl fst.
  destruct (client_available w st) eqn:Hready.
  - rewrite backend_run_last by exact Hready.
    destruct user_id as [[|c u]|], agent_id, app_id, run_id; reflexivity.
  - rewrite backend_run_unavailable by exact Hready. now rewrite app_nil_r.
Qed.

End Deletion.

(** C9: the payload [delete_all_memories] forwards always holds a
    [user_id]: the caller's value when it is not empty, the resolved default
    owner otherwise, whether or not [agent_id] or [run_id] is given. *)
Theorem delete_all_memories_user_scope (w : World)
    (user_id agent_id app_id run_id : option string)
    (ctx : option Context) (st : state) :
  exists kwargs,
    dict_lookup kwargs "user_id" =
      Some (VStr (match user_id with
                  | Some (String c u) => String c u
                  | _ => fst (_resolve_settings w ctx)
                  end)) /\
    dict_lookup kwargs "agent_id" = option_map VStr agent_id /\
    dict_lookup kwargs "run_id" = option_map VStr run_id /\
    backend_calls (snd (delete_all_memories w user_id agent_id app_id run_id ctx st)) =
    (backend_calls st ++
     if client_available w st then [client_delete_all kwargs] else [])%list.
Proof.
  exists (("user_id",
           VStr (if opt_truthy user_id
                 then match user_id with Some u => u | None => "" end
                 else fst (_resolve_settings w ctx)))
          :: field "agent_id" VStr agent_id ++ field "run_id" VStr run_id)%list.
  repeat split; [| | | apply delete_all_memories_calls].
  - destruct user_id as [[|c u]|]; reflexivity.
  - destruct agent_id, run_id; reflexivity.
  - destruct agent_id, run_id; reflexivity.
Qed.

(** C4: a deletion asked for with [app_id] set is to be rejected, without
    contacting the backend.  [delete_entities] does so;
    [delete_all_memories] does not.  Called with [app_id = "app-1"] and no
    other scope, [delete_entities] returns the [unsupported_scope]
    document and leaves the state as it was, while [delete_all_memories]
    takes [app_id] out of the payload, calls [delete_all] for the default
    owner [mem0-mcp] and hands back the backend's answer.  The tool is
    described as deleting "every memory in the given user/agent/app/run"
    and documented as deleting "every memory in the confirmed scope"; the
    call it makes is for a scope the caller never named. *)
Theorem delete_all_memories_app_scope_not_rejected :
  delete_entities
    (sample_world (inl (VDict [("message", VStr "Memories deleted successfully!")])) [])
    None None (Some "app-1") None None fresh =
  (inl (json_dumps quiet_world
          (VDict [("error", VStr "unsupported_scope");
                  ("detail", VStr "app_id scope is not available in self-hosted mode")])),
   fresh) /\
  delete_all_memories
    (sample_world (inl (VDict [("message", VStr "Memories deleted successfully!")])) [])
    None None (Some "app-1") None None fresh =
  (inl (json_dumps quiet_world
          (VDict [("message", VStr "Memories deleted successfully!")])),
   {| client_instance := true;
      backend_calls := [client_delete_all [("user_id", VStr "mem0-mcp")]] |}).
Proof. split; reflexivity. Qed.

Section Window.

Lemma py_slice_window {A} (l : list A) (start len : Z) :
  (0 <= start)%Z -> (0 <= len)%Z ->
  py_slice l start (start + len) =
  firstn (Z.to_nat len) (skipn (Z.to_nat start) l).
Proof.
  intros Hstart Hlen. unfold py_slice, slice_bound.
  destruct (Z.ltb_spec start 0); [lia|].
  destruct (Z.ltb_spec (start + len) 0); [lia|].
  set (L := Z.of_nat (List.length l)).
  destruct (Z_le_gt_dec L start) as [Hout|Hin].
  - rewrite !Z.min_r by lia. replace (L - L)%Z with 0%Z by lia. simpl.
    rewrite skipn_all2 by (subst L; lia). now rewrite firstn_nil.
  - rewrite (Z.min_l start L) by lia.
    destruct (Z_le_gt_dec (start + len) L) as [Hfit|Hcut].
    + rewrite Z.min_l by lia. f_equal. lia.
    + rewrite Z.min_r by lia.
      rewrite !firstn_all2; [reflexivity | |]; rewrite length_skipn; subst L; lia.
Qed.

Lemma py_slice_beyond {A} (l : list A) (start len : Z) :
  (0 <= len)%Z -> (Z.of_nat (List.length l) <= start)%Z ->
  py_slice l start (start + len) = [].
Proof.
  intros Hlen Hout. rewrite py_slice_window by lia.
  rewrite skipn_all2 by lia. apply firstn_nil.
Qed.

Lemma py_slice_nil {A} (start stop : Z) : py_slice (@nil A) start stop = [].
Proof. unfold py_slice. rewrite skipn_nil. apply firstn_nil. Qed.

Lemma py_slice_past {A} (l : list A) (start stop : Z) :
  (Z.of_nat (List.length l) <= start)%Z -> py_slice l start stop = [].
Proof.
  intros Hout. unfold py_slice, slice_bound.
  destruct (Z.ltb_spec start 0); [lia|].
  rewrite (Z.min_r start) by lia.
  rewrite skipn_all2 by lia. apply firstn_nil.
Qed.

Lemma py_slice_whole {A} (l : list A) (stop : Z) :
  (Z.of_nat (List.length l) <= stop)%Z -> py_slice l 0 stop = l.
Proof.
  intros Hfit. replace stop with (0 + stop)%Z by lia.
  rewrite py_slice_window by lia. simpl. apply firstn_all2. lia.
Qed.

Lemma dict_set_unchanged {A} (d : dict A) (k : string) (v : A) :
  dict_lookup d k = Some v -> dict_set d k v = d.
Proof.
  induction d as [|[k' v'] d IH]; simpl; [discriminate|].
  destruct (String.eqb k' k); intros Hfound.
  - now injection Hfound as ->.
  - now rewrite IH.
Qed.

(** What an answer of at most [max(0, limit)] items means for the two
    branches of the post-processing: where the code cuts, its window is the
    slice with the page size unclamped; where it does not, the list it
    leaves alone is that slice already. *)
Lemma no_items_below_limit (results : list value) (page page_size : Z) :
  (page_size <= 0)%Z ->
  (Z.of_nat (List.length results) <=
   Z.max 0 (fetch_limit (Some page) (Some page_size)))%Z ->
  results = [].
Proof.
  intros Hsize Hlimit. unfold fetch_limit in Hlimit.
  assert (Hp : (1 <= Z.max (int_or (Some page) 1) 1)%Z) by lia.
  destruct results; [reflexivity|]. simpl List.length in Hlimit. nia.
Qed.

Lemma page_window_unclamped (results : list value) (page page_size : Z) :
  page_size <> 0%Z ->
  (Z.of_nat (List.length results) <=
   Z.max 0 (fetch_limit (Some page) (Some page_size)))%Z ->
  page_window results page page_size =
  py_slice results ((Z.max page 1 - 1) * page_size)
    ((Z.max page 1 - 1) * page_size + page_size).
Proof.
  intros Hsize Hlimit. destruct (Z_lt_le_dec page_size 0) as [Hneg|Hpos].
  - rewrite (no_items_below_limit results page page_size) by (lia || exact Hlimit).
    unfold page_window. now rewrite !py_slice_nil.
  - unfold page_window. now rewrite (Z.max_l page_size 1) by lia.
Qed.

Lemma uncut_is_first_page (results : list value) (page page_size : Z) :
  page = 0%Z \/ page_size = 0%Z ->
  (Z.of_nat (List.length results) <=
   Z.max 0 (fetch_limit (Some page) (Some page_size)))%Z ->
  py_slice results ((Z.max page 1 - 1) * page_size)
    ((Z.max page 1 - 1) * page_size + page_size) = results.
Proof.
  intros Hzero Hlimit. destruct (Z_le_gt_dec page_size 0) as [Hneg|Hpos].
  - rewrite (no_items_below_limit results page page_size) by (lia || exact Hlimit).
    apply py_slice_nil.
  - destruct Hzero as [Hpage|Hsize]; [subst page|lia].
    change (Z.max 0 1 - 1)%Z with 0%Z. rewrite Z.mul_0_l, Z.add_0_l.
    apply py_slice_whole.
    change (fetch_limit (Some 0%Z) (Some page_size)) with (1 * page_size)%Z in Hlimit.
    lia.
Qed.

End Window.

(** C2: when [page] and [page_size] are both given, the normalised
    envelope holds a list under [results], and that list holds no more
    items than the fetch asked for (at most [max(0, limit)], where
    [limit = max(page or 1, 1) * page_size] is the limit the [get_all] call
    carried), the response holds under [results] the slice
    [[(p-1)*page_size : (p-1)*page_size + page_size]] of that list, with
    [p = max(page, 1)].  This holds for every [page] and [page_size], zero
    and negative values included.  A window that starts at or after the end
    of the list is the empty list, and the call returns a document, not an
    error.  Of the items 0..29, page 3 of size 10 is 20..29 and page 5 of
    size 10 is empty. *)
Theorem get_memories_page_slice (w : World) (filters : option (dict value))
    (page page_size : Z) (enable_graph : option bool) (ctx : option Context)
    (st : state) (answer : value) (envelope : dict value) (results : list value) :
  client_available w st = true ->
  backend w (client_get_all
               (fetch_payload w filters (Some page) (Some page_size) ctx)) = inl answer ->
  envelope_of answer = Some envelope ->
  json_loads w (json_dumps w (VDict envelope)) = Some (VDict envelope) ->
  dict_get envelope "results" = VList results ->
  (Z.of_nat (List.length results) <=
   Z.max 0 (fetch_limit (Some page) (Some page_size)))%Z ->
  let start := ((Z.max page 1 - 1) * page_size)%Z in
  fst (get_memories w filters (Some page) (Some page_size) enable_graph ctx st) =
    inl (json_dumps w
           (VDict (dict_set envelope "results"
                     (VList (py_slice results start (start + page_size)))))) /\
  ((Z.of_nat (List.length results) <= start)%Z ->
   py_slice results start (start + page_size) = []) /\
  py_slice (int_items 0 30) ((Z.max 3 1 - 1) * 10) ((Z.max 3 1 - 1) * 10 + 10) =
    int_items 20 10 /\
  py_slice (int_items 0 30) ((Z.max 5 1 - 1) * 10) ((Z.max 5 1 - 1) * 10 + 10) = [].
Proof.
  intros Hready Hanswer Henv Hloads Hresults Hlimit start.
  split; [|split; [|split]].
  - rewrite get_memories_run by exact Hready. cbv zeta. rewrite Hanswer.
    assert (Hnorm : normalized w (inl answer) = inl (json_dumps w (VDict envelope))).
    { destruct answer; try discriminate; simpl in Henv; injection Henv as <-; reflexivity. }
    rewrite Hnorm. cbn [fst]. f_equal.
    unfold post_process, int_truthy.
    destruct (Z.eqb_spec page 0) as [Hpage|Hpage];
      [|destruct (Z.eqb_spec page_size 0) as [Hsize|Hsize]]; cbn [negb andb].
    + subst start. rewrite uncut_is_first_page by (auto || exact Hlimit).
      rewrite dict_set_unchanged; [reflexivity|].
      unfold dict_get in Hresults.
      destruct (dict_lookup envelope "results"); [now subst | discriminate].
    + subst start. rewrite uncut_is_first_page by (auto || exact Hlimit).
      rewrite dict_set_unchanged; [reflexivity|].
      unfold dict_get in Hresults.
      destruct (dict_lookup envelope "results"); [now subst | discriminate].
    + rewrite Hloads, Hresults.
      now rewrite (page_window_unclamped results page page_size Hsize Hlimit).
  - intros Hout. now apply py_slice_past.
  - reflexivity.
  - reflexivity.
Qed.

Lemma get_memories_page_slice_witness :
  fst (get_memories
         (sample_world (inl (VList (int_items 0 30)))
            [(json_dumps quiet_world (VDict [("results", VList (int_items 0 30))]),
              VDict [("results", VList (int_items 0 30))])])
         None (Some 3%Z) (Some 10%Z) None None fresh) =
  inl (json_dumps quiet_world (VDict [("results", VList (int_items 20 10))])) /\
  fst (get_memories
         (sample_world (inl (VList (int_items 0 10)))
            [(json_dumps quiet_world (VDict [("results", VList (int_items 0 10))]),
              VDict [("results", VList (int_items 0 10))])])
         None (Some 0%Z) (Some 10%Z) None None fresh) =
  inl (json_dumps quiet_world (VDict [("results", VList (int_items 0 10))])).
Proof.
  split.
  - refine (eq_trans
              (proj1 (get_memories_page_slice
                        (sample_world (inl (VList (int_items 0 30)))
                           [(json_dumps quiet_world
                               (VDict [("results", VList (int_items 0 30))]),
                             VDict [("results", VList (int_items 0 30))])])
                        None 3 10 None None fresh
                        (VList (int_items 0 30))
                        [("results", VList (int_items 0 30))]
                        (int_items 0 30) _ _ _ _ _ _)) _).
    + reflexivity.
    + reflexivity.
    + reflexivity.
    + vm_compute. reflexivity.
    + reflexivity.
    + vm_compute. discriminate.
    + vm_compute. reflexivity.
  - refine (eq_trans
              (proj1 (get_memories_page_slice
                        (sample_world (inl (VList (int_items 0 10)))
                           [(json_dumps quiet_world
                               (VDict [("results", VList (int_items 0 10))]),
                             VDict [("results", VList (int_items 0 10))])])
                        None 0 10 None None fresh
                        (VList (int_items 0 10))
                        [("results", VList (int_items 0 10))]
                        (int_items 0 10) _ _ _ _ _ _)) _).
    + reflexivity.
    + reflexivity.
    + reflexivity.
    + vm_compute. reflexivity.
    + reflexivity.
    + vm_compute. discriminate.
    + vm_compute. reflexivity.
Defined.

(** ** Adding a memory *)

Section Adding.

Variable w : World.


Lemma tool_messages_of_absent (messages : option (list (dict string))) (st : state) :
  messages = None \/ messages = Some [] ->
  tool_messages_of messages st = (inl None, st).
Proof. intros [->| ->]; reflexivity. Qed.

(** [add_memory] once the messages are validated. *)
Lemma add_memory_run (text : string) (messages : option (list (dict string)))
    (user_id agent_id app_id run_id : option string)
    (metadata : option (dict value)) (enable_graph : option bool)
    (ctx : option Context) (st : state) (tms : option (list ToolMessage)) :
  tool_messages_of messages st = (inl tms, st) ->
  add_memory w text messages user_id agent_id app_id run_id metadata enable_graph ctx st =
  let kwargs :=
    add_kwargs (fst (_resolve_settings w ctx)) user_id agent_id run_id metadata in
  match tms with
  | Some (m :: ms) =>
      (_ <- _mem0_client w ;;
       _mem0_call w
         (client_call w (client_add (VList (map ToolMessage_dump (m :: ms))) kwargs))) st
  | _ =>
      if str_truthy text then
        (_ <- _mem0_client w ;;
         _mem0_call w
           (client_call w
              (client_add (VList [VDict [("role", VStr "user"); ("content", VStr text)]])
                 kwargs))) st
      else
        (inl (error_json w "messages_missing"
                "Provide either `text` or `messages` so Mem0 knows what to store."), st)
  end.
Proof.
  intros Hmsgs. unfold add_memory, add_kwargs.
  destruct (_resolve_settings w ctx) as [default_user graph_default]. cbn [fst].
  unfold bind at 1. rewrite Hmsgs.
  destruct user_id as [[|cu u]|], agent_id as [[|ca a]|], run_id as [[|cr r]|],
    app_id, metadata, tms as [[|m ms]|], text as [|ct t]; reflexivity.
Qed.


Lemma add_kwargs_user_id (default_user : string) (user_id agent_id run_id : option string)
    (metadata : option (dict value)) :
  opt_truthy user_id = false ->
  dict_lookup (add_kwargs default_user user_id agent_id run_id metadata) "user_id" =
  if opt_truthy agent_id || opt_truthy run_id then None else Some (VStr default_user).
Proof.
  unfold add_kwargs. intros ->.
  destruct agent_id as [[|ca a]|], run_id as [[|cr r]|], metadata; reflexivity.
Qed.

End Adding.



(** C7 fails as stated: with no [user_id] and [agent_id] given as the
    empty string, the payload still carries the default owner as
    [user_id], next to the empty [agent_id]. *)
Lemma add_memory_empty_agent_counterexample :
  backend_calls
    (snd (add_memory quiet_world "buy milk" None None (Some "") None None None None None
            fresh)) =
  [client_add (VList [VDict [("role", VStr "user"); ("content", VStr "buy milk")]])
     [("user_id", VStr "mem0-mcp"); ("agent_id", VStr "")]].
Proof. reflexivity. Qed.

(** C7, amended: in a call to [add_memory] without a [user_id] (absent or
    empty) that has something to store, the payload's [user_id] is the
    resolved default owner if and only if neither [agent_id] nor [run_id]
    is given with a non-empty value; when one of them is, the payload holds
    no [user_id]. *)
Theorem add_memory_user_default (w : World) (text : string)
    (messages : option (list (dict string)))
    (user_id agent_id app_id run_id : option string)
    (metadata : option (dict value)) (enable_graph : option bool)
    (ctx : option Context) (st : state) (tms : option (list ToolMessage)) :
  opt_truthy user_id = false ->
  client_available w st = true ->
  tool_messages_of messages st = (inl tms, st) ->
  (exists m ms, tms = Some (m :: ms)) \/ text <> "" ->
  exists conversation kwargs,
    backend_calls
      (snd (add_memory w text messages user_id agent_id app_id run_id
              metadata enable_graph ctx st)) =
    (backend_calls st ++ [client_add conversation kwargs])%list /\
    dict_lookup kwargs "user_id" =
      (if opt_truthy agent_id || opt_truthy run_id
       then None
       else Some (VStr (fst (_resolve_settings w ctx)))).
Proof.
  intros Huser Hready Hmsgs Hstore.
  rewrite (add_memory_run w _ _ _ _ _ _ _ _ _ _ _ Hmsgs). cbv zeta.
  destruct tms as [[|m ms]|].
  - destruct Hstore as [[m [ms Hm]]|Htext]; [discriminate|].
    destruct text; [congruence|]. cbn [str_truthy].
    rewrite backend_run_last by exact Hready.
    eexists. eexists. split; [reflexivity | now apply add_kwargs_user_id].
  - rewrite backend_run_last by exact Hready.
    eexists. eexists. split; [reflexivity | now apply add_kwargs_user_id].
  - destruct Hstore as [[m [ms Hm]]|Htext]; [discriminate|].
    destruct text; [congruence|]. cbn [str_truthy].
    rewrite backend_run_last by exact Hready.
    eexists. eexists. split; [reflexivity | now apply add_kwargs_user_id].
Qed.

Lemma add_memory_user_default_witness :
  exists conversation kwargs,
    backend_calls
      (snd (add_memory quiet_world "likes tea" None None (Some "planner") None
              (Some "run-7") None None None fresh)) =
    [client_add conversation kwargs] /\
    dict_lookup kwargs "user_id" = None.
Proof.
  apply (add_memory_user_default quiet_world "likes tea" None None (Some "planner")
           None (Some "run-7") None None None fresh None).
  - reflexivity.
  - reflexivity.
  - reflexivity.
  - right. discriminate.
Defined.

(** * Further properties *)

(** ** The traversal visits level by level *)

Section LevelOrder.

Variable w : World.

Lemma first_match_app (a b : list value) :
  first_match w (a ++ b) =
  match first_match w a with
  | Some s => Some s
  | None => first_match w b
  end.
Proof.
  induction a as [|node a IH]; simpl; [reflexivity|].
  destruct (node_match w node); [reflexivity | exact IH].
Qed.

Lemma first_match_in (nodes : list value) (s : string) :
  first_match w nodes = Some s ->
  exists node, In node nodes /\ node_match w node = Some s.
Proof.
  induction nodes as [|node nodes IH]; simpl; [discriminate|].
  destruct (node_match w node) as [s'|] eqn:Hnode.
  - intros [= <-]. exists node. split; [now left | exact Hnode].
  - intros H. destruct (IH H) as [n [Hin Hn]]. exists n. split; [now right | exact Hn].
Qed.

(** Running the loop over a whole level: the nodes of [queue] are tested
    in order while their children pile up behind [acc]. *)
Lemma scan_queue_level_acc (d : string) (queue acc : list value) :
  scan_queue w (queue ++ acc) d =
  match first_match w queue with
  | Some s => s
  | None => scan_queue w (acc ++ flat_map node_children queue) d
  end.
Proof.
  revert acc. induction queue as [|node queue IH]; intros acc; simpl.
  - now rewrite app_nil_r.
  - rewrite scan_queue_cons. destruct (node_match w node); [reflexivity|].
    rewrite <- app_assoc, IH. destruct (first_match w queue); [reflexivity|].
    now rewrite <- app_assoc.
Qed.

Lemma scan_queue_level (d : string) (queue : list value) :
  scan_queue w queue d =
  match first_match w queue with
  | Some s => s
  | None => scan_queue w (flat_map node_children queue) d
  end.
Proof.
  rewrite <- (app_nil_r queue) at 1. now rewrite scan_queue_level_acc.
Qed.

Lemma value_size_pos (v : value) : 1 <= value_size v.
Proof. destruct v; simpl; lia. Qed.

Lemma queue_size_children (queue : list value) :
  queue_size (flat_map node_children queue) + List.length queue <= queue_size queue.
Proof.
  unfold queue_size. induction queue as [|node queue IH]; simpl; [lia|].
  rewrite map_app, list_sum_app.
  assert (Hnode : list_sum (map value_size (node_children node)) < value_size node).
  { destruct node; simpl; try lia. unfold dict_values. rewrite map_map. lia. }
  lia.
Qed.

Lemma scan_queue_levels (d : string) (depth : nat) (queue : list value) :
  queue_size queue <= depth ->
  scan_queue w queue d =
  match first_match w (levels depth queue) with
  | Some s => s
  | None => d
  end.
Proof.
  revert queue. induction depth as [|depth IH]; intros queue Hsize.
  - destruct queue as [|node queue]; [now simp scan_queue|].
    pose proof (value_size_pos node). unfold queue_size in Hsize. simpl in Hsize. lia.
  - rewrite scan_queue_level. simpl levels. rewrite first_match_app.
    destruct (first_match w queue); [reflexivity|].
    apply IH. pose proof (queue_size_children queue).
    destruct queue; [unfold queue_size; simpl; lia | simpl in *; lia].
Qed.

Lemma levels_nil (depth : nat) : levels depth [] = [].
Proof. induction depth as [|depth IH]; [reflexivity | simpl; exact IH]. Qed.

Lemma levels_in_pending (depth : nat) (queue : list value) (node : value) :
  In node (levels depth queue) -> In node (pending queue).
Proof.
  revert queue. induction depth as [|depth IH]; intros queue; simpl; [intros []|].
  rewrite in_app_iff. intros [Hq|Hdeep].
  - unfold pending. apply in_flat_map. exists node. split; [exact Hq|].
    destruct node; simpl; now left.
  - apply IH in Hdeep. unfold pending in *. apply in_flat_map in Hdeep.
    destruct Hdeep as [child [Hchild Hnode]].
    apply in_flat_map in Hchild. destruct Hchild as [parent [Hparent Hchild]].
    apply in_flat_map. exists parent. split; [exact Hparent|].
    rewrite subnodes_children. right. unfold pending. apply in_flat_map.
    exists child. now split.
Qed.

End LevelOrder.

(** X1: [_extract_user_id] answers with the first match in level order:
    the filter expression itself, then its children from left to right,
    then theirs, and so on; the default when no node of any level matches. *)
Theorem extract_user_id_level_order (w : World) (filters : value) (default_owner : string) :
  _extract_user_id w filters default_owner =
  match first_match w (levels (value_size filters) [filters]) with
  | Some extracted => extracted
  | None => default_owner
  end.
Proof.
  unfold _extract_user_id. destruct (truthy filters) eqn:Ht; cbn [negb].
  - apply scan_queue_levels. unfold queue_size. simpl. lia.
  - destruct filters as [| | |f|s|[|x items]|[|kv entries]]; try discriminate;
      simpl; rewrite ?levels_nil; reflexivity.
Qed.

(** A clause one level down wins over a clause two levels down that comes
    first in the text. *)
Example extract_user_id_shallow_first :
  _extract_user_id quiet_world
    (VDict [("AND", VList [VDict [("OR", VList [VDict [("user_id", VStr "deep")]])];
                           VDict [("user_id", VStr "shallow")]])])
    "mem0-mcp" = "shallow".
Proof. reflexivity. Qed.

Lemma leaf_owner_some (w : World) (leaf : value) (s : string) :
  leaf_owner w leaf = Some s -> _extract_id_value w leaf = Some s /\ s <> "".
Proof.
  unfold leaf_owner. destruct (_extract_id_value w leaf) as [e|]; [|discriminate].
  destruct e; simpl; [discriminate|]. intros [= <-]. split; [reflexivity | discriminate].
Qed.

(** X2: what [_extract_user_id] returns is the default owner or a
    non-empty string extracted from one of the [user_id] leaves of the
    filter expression. *)
Theorem extract_user_id_provenance (w : World) (filters : value) (default_owner : string) :
  _extract_user_id w filters default_owner = default_owner \/
  (_extract_user_id w filters default_owner <> "" /\
   exists leaf,
     In leaf (user_id_leaves filters) /\
     _extract_id_value w leaf = Some (_extract_user_id w filters default_owner)).
Proof.
  unfold _extract_user_id. destruct (truthy filters); cbn [negb]; [|now left].
  rewrite (scan_queue_levels w default_owner (value_size filters) [filters])
    by (unfold queue_size; simpl; lia).
  destruct (first_match w (levels (value_size filters) [filters])) as [s|] eqn:Hfirst;
    [right | now left].
  destruct (first_match_in w _ _ Hfirst) as [node [Hin Hnode]].
  apply levels_in_pending in Hin. rewrite pending_singleton in Hin.
  rewrite node_match_clause in Hnode.
  destruct (user_id_clause node) as [leaf|] eqn:Hclause; [|discriminate].
  destruct (leaf_owner_some w leaf s Hnode) as [Hextract Hne].
  split; [exact Hne|]. exists leaf. split; [|exact Hextract].
  eapply clause_in_leaves; eassumption.
Qed.

(** ** Calls, failures and what the tools forward *)

Section Calls.

Variable w : World.

Lemma mem0_client_no_key (st : state) :
  client_instance st = false ->
  opt_truthy (getenv w "OPENAI_API_KEY") = false ->
  _mem0_client w st = (inr missing_key_error, st).
Proof.
  intros Hnone Hkey. unfold _mem0_client, missing_key_error. rewrite Hnone.
  destruct (getenv w "OPENAI_API_KEY") as [[|c k]|]; try reflexivity. discriminate.
Qed.

Lemma search_memories_shape (query : string) (filters : option (dict value))
    (limit : option Z) (enable_graph : option bool) (ctx : option Context) :
  search_memories w query filters limit enable_graph ctx =
  (_ <- _mem0_client w ;;
   _mem0_call w (client_call w (client_search (search_payload w query filters limit ctx)))).
Proof.
  unfold search_memories, search_payload.
  destruct (_resolve_settings w ctx) as [default_user graph_default].
  destruct filters, limit; reflexivity.
Qed.

Lemma get_memories_shape (filters : option (dict value)) (page page_size : option Z)
    (enable_graph : option bool) (ctx : option Context) :
  get_memories w filters page page_size enable_graph ctx =
  (_ <- _mem0_client w ;;
   response <- _mem0_call w
                 (client_call w (client_get_all (fetch_payload w filters page page_size ctx))) ;;
   ret (post_process w page page_size response)).
Proof.
  unfold get_memories, fetch_payload.
  destruct (_resolve_settings w ctx) as [default_user graph_default].
  destruct filters, page, page_size; reflexivity.
Qed.

Lemma delete_all_memories_shape (user_id agent_id app_id run_id : option string)
    (ctx : option Context) :
  delete_all_memories w user_id agent_id app_id run_id ctx =
  (_ <- _mem0_client w ;;
   _mem0_call w
     (client_call w (client_delete_all (delete_all_payload w user_id agent_id run_id ctx)))).
Proof.
  unfold delete_all_memories, delete_all_payload.
  destruct (_resolve_settings w ctx) as [default_user graph_default].
  destruct user_id as [[|c u]|], agent_id, app_id, run_id; reflexivity.
Qed.

Lemma delete_entities_shape (user_id agent_id run_id : option string)
    (ctx : option Context) :
  existsb opt_truthy [user_id; agent_id; run_id] = true ->
  delete_entities w user_id agent_id None run_id ctx =
  (_ <- _mem0_client w ;;
   _mem0_call w
     (client_call w (client_delete_all (delete_entities_payload user_id agent_id run_id)))).
Proof.
  intros Hscope. unfold delete_entities, delete_entities_payload. simpl in *.
  destruct (opt_truthy user_id), (opt_truthy agent_id), (opt_truthy run_id);
    try discriminate; destruct user_id, agent_id, run_id; reflexivity.
Qed.

Lemma client_call_calls (c : backend_call) (st : state) :
  backend_calls (snd ((_ <- _mem0_client w ;; _mem0_call w (client_call w c)) st)) =
  (backend_calls st ++ if client_available w st then [c] else [])%list.
Proof.
  destruct (client_available w st) eqn:Hready.
  - now rewrite backend_run_last.
  - rewrite backend_run_unavailable by exact Hready. now rewrite app_nil_r.
Qed.

Lemma call_once (c : backend_call) :
  one_call_at_most (_ <- _mem0_client w ;; _mem0_call w (client_call w c)).
Proof.
  intros st. destruct (client_available w st) eqn:Hready.
  - exists [c]. rewrite backend_run_last by exact Hready. simpl. auto.
  - exists []. rewrite backend_run_unavailable by exact Hready.
    rewrite app_nil_r. simpl. auto.
Qed.

Lemma call_then_ret_once (c : backend_call) (f : string -> string) :
  one_call_at_most
    (_ <- _mem0_client w ;; r <- _mem0_call w (client_call w c) ;; ret (f r)).
Proof.
  intros st. destruct (client_available w st) eqn:Hready.
  - exists [c]. rewrite backend_run by exact Hready.
    destruct (normalized w (backend w c)); simpl; auto.
  - exists []. rewrite backend_run_unavailable by exact Hready.
    rewrite app_nil_r. simpl. auto.
Qed.

Lemma ret_once (response : string) : one_call_at_most (ret response).
Proof. intros st. exists []. simpl. rewrite app_nil_r. auto. Qed.

Lemma tool_messages_of_pure (messages : option (list (dict string))) (st : state) :
  exists r, tool_messages_of messages st = (r, st).
Proof.
  assert (Hnew : forall msg, exists r, ToolMessage_new msg st = (r, st)).
  { intros msg. unfold ToolMessage_new.
    destruct (dict_lookup msg "role"), (dict_lookup msg "content"); eexists; reflexivity. }
  assert (Hmap : forall l, exists r, map_M ToolMessage_new l st = (r, st)).
  { induction l as [|msg l [r IH]]; [eexists; reflexivity|].
    simpl. unfold bind. destruct (Hnew msg) as [r1 H1]. rewrite H1.
    destruct r1; [rewrite IH; destruct r|]; eexists; reflexivity. }
  destruct messages as [[|msg msgs]|]; try (eexists; reflexivity).
  unfold tool_messages_of, bind. destruct (Hmap (msg :: msgs)) as [r Hr].
  rewrite Hr. destruct r; eexists; reflexivity.
Qed.

Lemma add_memory_invalid (text : string) (messages : option (list (dict string)))
    (user_id agent_id app_id run_id : option string)
    (metadata : option (dict value)) (enable_graph : option bool)
    (ctx : option Context) (st : state) (e : exn) :
  tool_messages_of messages st = (inr e, st) ->
  add_memory w text messages user_id agent_id app_id run_id metadata enable_graph ctx st =
  (inr e, st).
Proof.
  intros Hmsgs. unfold add_memory.
  destruct (_resolve_settings w ctx) as [default_user graph_default].
  unfold bind at 1. now rewrite Hmsgs.
Qed.

Lemma add_memory_once (text : string) (messages : option (list (dict string)))
    (user_id agent_id app_id run_id : option string)
    (metadata : option (dict value)) (enable_graph : option bool)
    (ctx : option Context) :
  one_call_at_most
    (add_memory w text messages user_id agent_id app_id run_id metadata enable_graph ctx).
Proof.
  intros st. destruct (tool_messages_of_pure messages st) as [[tms|e] Hmsgs].
  - rewrite (add_memory_run w _ _ _ _ _ _ _ _ _ _ _ Hmsgs). cbv zeta.
    destruct tms as [[|m ms]|]; try apply call_once;
      destruct (str_truthy text); try apply call_once;
      exists []; simpl; rewrite app_nil_r; auto.
  - rewrite (add_memory_invalid _ _ _ _ _ _ _ _ _ _ _ Hmsgs).
    exists []. simpl. rewrite app_nil_r. auto.
Qed.

Lemma post_process_no_size (page : option Z) (response : string) :
  post_process w page None response = response.
Proof. unfold post_process. destruct (int_truthy page); reflexivity. Qed.

Lemma post_process_not_mapping (page page_size : option Z) (response : string) :
  (forall entries, json_loads w response <> Some (VDict entries)) ->
  post_process w page page_size response = response.
Proof.
  intros Hnot. unfold post_process.
  destruct (int_truthy page && int_truthy page_size); [|reflexivity].
  destruct page, page_size; try reflexivity.
  destruct (json_loads w response) as [[]|]; try reflexivity.
  now destruct (Hnot entries).
Qed.

Lemma post_process_no_results (page page_size : option Z) (entries : dict value) :
  json_loads w (json_dumps w (VDict entries)) = Some (VDict entries) ->
  (forall results, dict_get entries "results" <> VList results) ->
  post_process w page page_size (json_dumps w (VDict entries)) =
  json_dumps w (VDict entries).
Proof.
  intros Hloads Hnot. unfold post_process.
  destruct (int_truthy page && int_truthy page_size); [|reflexivity].
  destruct page, page_size; try reflexivity.
  rewrite Hloads. destruct (dict_get entries "results") eqn:Hres; try reflexivity.
  now destruct (Hnot items).
Qed.

End Calls.

(** X3: [_mem0_call] lets every exception but [MemoryError] through
    unchanged, raises nothing of its own, and leaves the state as the call
    left it. *)
Theorem mem0_call_propagates (w : World) (func : M value) (st : state) :
  snd (_mem0_call w func st) = snd (func st) /\
  (forall e,
      fst (_mem0_call w func st) = inr e <->
      fst (func st) = inr e /\ forall message status payload,
                                 e <> MemoryError message status payload).
Proof.
  unfold _mem0_call. destruct (func st) as [[result|e'] st']; simpl.
  - split; [reflexivity|]. intros e. split; [discriminate | intros [H _]; discriminate].
  - destruct e'; simpl; (split; [reflexivity|]); intros e; split;
      try (intros [= <-]; split; [reflexivity | discriminate]);
      try (intros [[= <-] _]; reflexivity);
      try discriminate.
    intros [[= <-] Hnot]. now destruct (Hnot message status payload).
Qed.

(** X4: once [_mem0_client] has built the client it is reused: a later
    call succeeds without looking at the environment again, whatever the
    environment has become, and neither call contacts the backend. *)
Theorem mem0_client_reused (w w' : World) (st : state) :
  fst (_mem0_client w st) = inl tt ->
  _mem0_client w' (snd (_mem0_client w st)) = (inl tt, snd (_mem0_client w st)) /\
  backend_calls (snd (_mem0_client w st)) = backend_calls st.
Proof.
  unfold _mem0_client. destruct st as [[|] calls]; simpl; [now split|].
  destruct (getenv w "OPENAI_API_KEY") as [[|c k]|]; simpl; try discriminate.
  destruct (connect w); simpl; [discriminate | now split].
Qed.

Lemma mem0_client_reused_witness :
  _mem0_client bare_world (snd (_mem0_client quiet_world fresh)) =
  (inl tt, snd (_mem0_client quiet_world fresh)) /\
  backend_calls (snd (_mem0_client quiet_world fresh)) = backend_calls fresh.
Proof. apply (mem0_client_reused quiet_world bare_world fresh). reflexivity. Defined.

(** X5: while no client exists and [OPENAI_API_KEY] is unset or empty,
    every tool that needs the client raises the same [RuntimeError] and
    leaves the state as it was, so the next call fails the same way and
    nothing reaches the backend. *)
Theorem tools_need_api_key (w : World) (st : state) (memory_id text query : string)
    (filters : option (dict value)) (limit page page_size : option Z)
    (enable_graph : option bool) (user_id agent_id app_id run_id : option string)
    (ctx : option Context) :
  client_instance st = false ->
  opt_truthy (getenv w "OPENAI_API_KEY") = false ->
  get_memory w memory_id ctx st = (inr missing_key_error, st) /\
  update_memory w memory_id text ctx st = (inr missing_key_error, st) /\
  delete_memory w memory_id ctx st = (inr missing_key_error, st) /\
  search_memories w query filters limit enable_graph ctx st = (inr missing_key_error, st) /\
  get_memories w filters page page_size enable_graph ctx st = (inr missing_key_error, st) /\
  delete_all_memories w user_id agent_id app_id run_id ctx st = (inr missing_key_error, st).
Proof.
  intros Hnone Hkey. pose proof (mem0_client_no_key w st Hnone Hkey) as Hclient.
  rewrite search_memories_shape, get_memories_shape, delete_all_memories_shape.
  unfold get_memory, update_memory, delete_memory.
  repeat split; unfold bind at 1; now rewrite Hclient.
Qed.

Lemma tools_need_api_key_witness :
  get_memories bare_world None (Some 2%Z) (Some 10%Z) None None fresh =
  (inr missing_key_error, fresh).
Proof.
  apply (tools_need_api_key bare_world fresh "m-1" "text" "query" None None
           (Some 2%Z) (Some 10%Z) None None None None None None); reflexivity.
Defined.

(** X6: a run of any tool adds at most one call to the calls made on the
    client so far, never drops or reorders an earlier one, and never
    discards a client that was built. *)
Theorem tools_call_at_most_once (w : World) (memory_id text query : string)
    (messages : option (list (dict string)))
    (filters metadata : option (dict value)) (limit page page_size : option Z)
    (enable_graph : option bool) (user_id agent_id app_id run_id : option string)
    (ctx : option Context) :
  one_call_at_most
    (add_memory w text messages user_id agent_id app_id run_id metadata enable_graph ctx) /\
  one_call_at_most (search_memories w query filters limit enable_graph ctx) /\
  one_call_at_most (get_memories w filters page page_size enable_graph ctx) /\
  one_call_at_most (delete_all_memories w user_id agent_id app_id run_id ctx) /\
  one_call_at_most (list_entities w ctx) /\
  one_call_at_most (get_memory w memory_id ctx) /\
  one_call_at_most (update_memory w memory_id text ctx) /\
  one_call_at_most (delete_memory w memory_id ctx) /\
  one_call_at_most (delete_entities w user_id agent_id app_id run_id ctx).
Proof.
  rewrite search_memories_shape, get_memories_shape, delete_all_memories_shape.
  repeat split; try apply call_once; try apply call_then_ret_once;
    try apply add_memory_once; try apply ret_once.
  unfold delete_entities. cbn [de_user_id de_agent_id de_app_id de_run_id].
  destruct (negb _); [apply ret_once|].
  destruct app_id; [apply ret_once | apply call_once].
Qed.

(** X7: the graph toggle is inert.  Whatever [enable_graph] the caller
    passes, and whatever graph default the session carries, [add_memory],
    [search_memories] and [get_memories] behave the same: the only setting
    they take from the context is the default owner. *)
Theorem enable_graph_inert (w : World) (text query : string)
    (messages : option (list (dict string)))
    (filters metadata : option (dict value)) (limit page page_size : option Z)
    (user_id agent_id app_id run_id : option string)
    (enable_graph enable_graph' : option bool) (ctx ctx' : option Context)
    (st : state) :
  fst (_resolve_settings w ctx) = fst (_resolve_settings w ctx') ->
  add_memory w text messages user_id agent_id app_id run_id metadata enable_graph ctx st =
  add_memory w text messages user_id agent_id app_id run_id metadata enable_graph' ctx' st /\
  search_memories w query filters limit enable_graph ctx st =
  search_memories w query filters limit enable_graph' ctx' st /\
  get_memories w filters page page_size enable_graph ctx st =
  get_memories w filters page page_size enable_graph' ctx' st.
Proof.
  intros Howner. repeat split.
  - destruct (tool_messages_of_pure messages st) as [[tms|e] Hmsgs].
    + rewrite !(add_memory_run w _ _ _ _ _ _ _ _ _ _ _ Hmsgs). now rewrite Howner.
    + now rewrite !(add_memory_invalid w _ _ _ _ _ _ _ _ _ _ _ Hmsgs).
  - rewrite !search_memories_shape. unfold search_payload. now rewrite Howner.
  - rewrite !get_memories_shape. unfold fetch_payload. now rewrite Howner.
Qed.

Lemma enable_graph_inert_witness :
  get_memories quiet_world None (Some 1%Z) (Some 5%Z) None None fresh =
  get_memories quiet_world None (Some 1%Z) (Some 5%Z) (Some true)
    (Some {| session_config :=
               Some {| default_user_id := None; enable_graph_default := Some true |} |})
    fresh.
Proof.
  apply (enable_graph_inert quiet_world "text" "query" None None None None
           (Some 1%Z) (Some 5%Z) None None None None None (Some true) None
           (Some {| session_config :=
                      Some {| default_user_id := None;
                              enable_graph_default := Some true |} |})
           fresh).
  reflexivity.
Defined.

(** X8: [search_memories] makes one [search] call (none when the client
    cannot be had) whose keyword arguments hold the query, the caller's
    filters untouched, the caller's limit when there is one, and a
    [user_id] resolved from the filters or else the default owner; they
    never hold [enable_graph]. *)
Theorem search_memories_forwards (w : World) (query : string)
    (filters : option (dict value)) (limit : option Z)
    (enable_graph : option bool) (ctx : option Context) (st : state) :
  exists kwargs,
    dict_lookup kwargs "query" = Some (VStr query) /\
    dict_lookup kwargs "filters" = option_map VDict filters /\
    dict_lookup kwargs "limit" = option_map VInt limit /\
    dict_lookup kwargs "user_id" =
      Some (VStr (_extract_user_id w
                    (match filters with Some f => VDict f | None => VNone end)
                    (fst (_resolve_settings w ctx)))) /\
    dict_lookup kwargs "enable_graph" = None /\
    backend_calls (snd (search_memories w query filters limit enable_graph ctx st)) =
    (backend_calls st ++
     if client_available w st then [client_search kwargs] else [])%list.
Proof.
  exists (search_payload w query filters limit ctx).
  rewrite search_memories_shape, client_call_calls. unfold search_payload.
  destruct filters, limit; repeat split; reflexivity.
Qed.

(** X9: the keyword arguments of the [get_all] call of [get_memories] hold
    the caller's filters untouched and a [user_id] resolved from the
    filters or else the default owner; [page], [page_size] and
    [enable_graph] are never forwarded. *)
Theorem get_memories_forwards (w : World) (filters : option (dict value))
    (page page_size : option Z) (enable_graph : option bool)
    (ctx : option Context) (st : state) :
  exists kwargs,
    dict_lookup kwargs "filters" = option_map VDict filters /\
    dict_lookup kwargs "user_id" =
      Some (VStr (_extract_user_id w
                    (match filters with Some f => VDict f | None => VNone end)
                    (fst (_resolve_settings w ctx)))) /\
    dict_lookup kwargs "page" = None /\
    dict_lookup kwargs "page_size" = None /\
    dict_lookup kwargs "enable_graph" = None /\
    backend_calls (snd (get_memories w filters page page_size enable_graph ctx st)) =
    (backend_calls st ++
     if client_available w st then [client_get_all kwargs] else [])%list.
Proof.
  exists (fetch_payload w filters page page_size ctx).
  assert (Hcalls :
    backend_calls (snd (get_memories w filters page page_size enable_graph ctx st)) =
    (backend_calls st ++
     if client_available w st
     then [client_get_all (fetch_payload w filters page page_size ctx)] else [])%list).
  { destruct (client_available w st) eqn:Hready.
    - rewrite get_memories_run by exact Hready. cbv zeta.
      destruct (normalized w _); reflexivity.
    - rewrite get_memories_unavailable by exact Hready. now rewrite app_nil_r. }
  unfold fetch_payload in *. destruct filters; repeat split; try reflexivity; exact Hcalls.
Qed.

(** X10: a [page] given without a [page_size] has no effect: the fetch
    uses the default limit of 100 and the response is not cut. *)
Theorem get_memories_page_alone (w : World) (filters : option (dict value))
    (page : Z) (enable_graph : option bool) (ctx : option Context) (st : state) :
  get_memories w filters (Some page) None enable_graph ctx st =
  get_memories w filters None None enable_graph ctx st.
Proof.
  destruct (client_available w st) eqn:Hready.
  - rewrite !get_memories_run by exact Hready. cbv zeta.
    change (fetch_payload w filters (Some page) None ctx)
      with (fetch_payload w filters None None ctx).
    destruct (normalized w _); [|reflexivity].
    now rewrite !post_process_no_size.
  - destruct (mem0_client_unavailable w st Hready) as [e He].
    rewrite !get_memories_shape. unfold bind at 1 3. now rewrite He.
Qed.

(** X11: when the backend answers the fetch with a [MemoryError],
    [get_memories] returns the error document whatever [page] and
    [page_size] are: the document has no [results] to cut, and going
    through [json.loads] and [json.dumps] gives it back. *)
Theorem get_memories_error_passthrough (w : World) (filters : option (dict value))
    (page page_size : option Z) (enable_graph : option bool) (ctx : option Context)
    (st : state) (message : string) (status payload : option value) :
  let document :=
    VDict [("error", VStr message);
           ("status", match status with Some v => v | None => VNone end);
           ("payload", match payload with Some v => v | None => VNone end)] in
  client_available w st = true ->
  backend w (client_get_all (fetch_payload w filters page page_size ctx)) =
    inr (MemoryError message status payload) ->
  json_loads w (json_dumps w document) = Some document ->
  fst (get_memories w filters page page_size enable_graph ctx st) =
  inl (json_dumps w document).
Proof.
  intros document Hready Hanswer Hloads.
  rewrite get_memories_run by exact Hready. cbv zeta. rewrite Hanswer.
  cbn [normalized fst]. f_equal.
  apply (post_process_no_results w page page_size _ Hloads).
  intros results. discriminate.
Qed.

Lemma get_memories_error_passthrough_witness :
  fst (get_memories
         (sample_world (inr (MemoryError "not found" (Some (VInt 404)) None))
            [(json_dumps quiet_world
                (VDict [("error", VStr "not found"); ("status", VInt 404);
                        ("payload", VNone)]),
              VDict [("error", VStr "not found"); ("status", VInt 404);
                     ("payload", VNone)])])
         None (Some 2%Z) (Some 10%Z) None None fresh) =
  inl (json_dumps quiet_world
         (VDict [("error", VStr "not found"); ("status", VInt 404); ("payload", VNone)])).
Proof.
  apply (get_memories_error_passthrough
           (sample_world (inr (MemoryError "not found" (Some (VInt 404)) None))
              [(json_dumps quiet_world
                  (VDict [("error", VStr "not found"); ("status", VInt 404);
                          ("payload", VNone)]),
                VDict [("error", VStr "not found"); ("status", VInt 404);
                       ("payload", VNone)])])
           None (Some 2%Z) (Some 10%Z) None None fresh "not found"
           (Some (VInt 404)) None); reflexivity.
Defined.

(** X12: when the response of the fetch does not read back as a mapping
    ([json.loads] raises, or gives a list, a string, a number or [null]),
    [get_memories] returns it as it came; the failure inside the [try]
    block does not fail the call. *)
Theorem get_memories_unparsed (w : World) (filters : option (dict value))
    (page page_size : option Z) (enable_graph : option bool) (ctx : option Context)
    (st : state) (response : string) :
  client_available w st = true ->
  normalized w (backend w (client_get_all (fetch_payload w filters page page_size ctx))) =
    inl response ->
  (forall entries, json_loads w response <> Some (VDict entries)) ->
  get_memories w filters page page_size enable_graph ctx st =
  (inl response,
   called st (client_get_all (fetch_payload w filters page page_size ctx))).
Proof.
  intros Hready Hnorm Hnot. rewrite get_memories_run by exact Hready. cbv zeta.
  rewrite Hnorm. now rewrite post_process_not_mapping.
Qed.

Lemma get_memories_unparsed_witness :
  get_memories (sample_world (inl (VStr "busy")) []) None (Some 2%Z) (Some 10%Z)
    None None fresh =
  (inl (json_dumps quiet_world (VStr "busy")),
   called fresh
     (client_get_all [("user_id", VStr "mem0-mcp"); ("limit", VInt 20)])).
Proof.
  apply (get_memories_unparsed (sample_world (inl (VStr "busy")) []) None
           (Some 2%Z) (Some 10%Z) None None fresh).
  - reflexivity.
  - reflexivity.
  - intros entries. cbn. discriminate.
Defined.

(** ** Page windows *)

Section Pages.

Lemma firstn_add {A} (a b : nat) (l : list A) :
  firstn (a + b) l = (firstn a l ++ firstn b (skipn a l))%list.
Proof.
  revert l. induction a as [|a IH]; intros l; [reflexivity|].
  destruct l as [|x l]; simpl; [now rewrite firstn_nil | now rewrite IH].
Qed.

Lemma page_window_firstn (results : list value) (page page_size : Z) :
  page_window results page page_size =
  firstn (Z.to_nat (Z.max page_size 1))
    (skipn (Z.to_nat ((Z.max page 1 - 1) * Z.max page_size 1)) results).
Proof. unfold page_window. apply py_slice_window; nia. Qed.

End Pages.

(** X13: the windows of pages 1, 2, ..., k of one positive page size, put
    end to end, are the first [k * page_size] results: the pages neither
    overlap nor skip an item. *)
Theorem page_windows_tile (results : list value) (page_size : Z) (pages : nat) :
  (1 <= page_size)%Z ->
  List.concat (map (fun p => page_window results (Z.of_nat p) page_size) (seq 1 pages)) =
  firstn (pages * Z.to_nat page_size) results.
Proof.
  intros Hsize. induction pages as [|k IH]; [reflexivity|].
  rewrite seq_S, map_app, concat_app, IH. cbn [map List.concat]. rewrite app_nil_r.
  rewrite page_window_firstn.
  replace (Z.max page_size 1) with page_size by lia.
  replace (Z.to_nat ((Z.max (Z.of_nat (1 + k)) 1 - 1) * page_size))
    with (k * Z.to_nat page_size) by nia.
  rewrite <- firstn_add. f_equal. lia.
Qed.

Lemma page_windows_tile_witness :
  List.concat (map (fun p => page_window (int_items 0 25) (Z.of_nat p) 10) (seq 1 3)) =
  firstn (3 * Z.to_nat 10) (int_items 0 25).
Proof. apply (page_windows_tile (int_items 0 25) 10 3). lia. Defined.

(** X14: fetching [max(page or 1, 1) * page_size] items is enough.  For a
    positive page size, the window cut out of the first [limit] items of
    the data is the window of the data itself. *)
Theorem fetch_limit_covers_window (data : list value) (page page_size : Z) :
  (1 <= page_size)%Z ->
  page_window
    (firstn (Z.to_nat (Z.max (int_or (Some page) 1) 1 * page_size)) data)
    page page_size =
  page_window data page page_size.
Proof.
  intros Hsize. rewrite !page_window_firstn.
  replace (Z.max page_size 1) with page_size by lia.
  assert (Hpage : Z.max (int_or (Some page) 1) 1 = Z.max page 1).
  { unfold int_or, int_truthy. destruct (Z.eqb_spec page 0); simpl; lia. }
  rewrite Hpage.
  replace (Z.to_nat (Z.max page 1 * page_size))
    with (Z.to_nat ((Z.max page 1 - 1) * page_size) + Z.to_nat page_size) by nia.
  rewrite <- firstn_skipn_comm. rewrite firstn_firstn. f_equal. lia.
Qed.

Lemma fetch_limit_covers_window_witness :
  page_window (firstn (Z.to_nat (Z.max (int_or (Some 3%Z) 1) 1 * 10)) (int_items 0 45))
    3 10 =
  page_window (int_items 0 45) 3 10.
Proof. apply (fetch_limit_covers_window (int_items 0 45) 3 10). lia. Defined.

(** X15: a window never holds more than [max(page_size, 1)] items, nor
    more than there are results. *)
Theorem page_window_length (results : list value) (page page_size : Z) :
  List.length (page_window results page page_size) <= Z.to_nat (Z.max page_size 1) /\
  List.length (page_window results page page_size) <= List.length results.
Proof.
  rewrite page_window_firstn. split.
  - apply firstn_le_length.
  - rewrite length_firstn, length_skipn. lia.
Qed.

(** ** Deleting entities and adding memories *)

Section Scopes.

Variable w : World.

Lemma add_kwargs_keys (default_user : string) (user_id agent_id run_id : option string)
    (metadata : option (dict value)) :
  incl (dict_keys (add_kwargs default_user user_id agent_id run_id metadata))
    ["user_id"; "agent_id"; "run_id"; "metadata"] /\
  dict_lookup (add_kwargs default_user user_id agent_id run_id metadata) "agent_id" =
    option_map VStr agent_id /\
  dict_lookup (add_kwargs default_user user_id agent_id run_id metadata) "run_id" =
    option_map VStr run_id /\
  dict_lookup (add_kwargs default_user user_id agent_id run_id metadata) "metadata" =
    option_map VDict metadata.
Proof.
  unfold add_kwargs.
  destruct user_id as [[|cu u]|], agent_id as [[|ca a]|], run_id as [[|cr r]|], metadata;
    (split; [intros k Hk; simpl in *; tauto | repeat split; reflexivity]).
Qed.

Lemma add_kwargs_explicit_user (default_user : string)
    (user_id agent_id run_id : option string) (metadata : option (dict value)) :
  opt_truthy user_id = true ->
  dict_lookup (add_kwargs default_user user_id agent_id run_id metadata) "user_id" =
  option_map VStr user_id.
Proof.
  unfold add_kwargs. intros Huser.
  destruct user_id as [[|c u]|]; try discriminate; reflexivity.
Qed.

End Scopes.

(** X16: [delete_entities] called without [app_id] and with at least one
    non-empty scope calls [delete_all] with exactly the scopes the caller
    gave; unlike [delete_all_memories] it adds no default [user_id]. *)
Theorem delete_entities_forwards (w : World) (user_id agent_id run_id : option string)
    (ctx : option Context) (st : state) :
  existsb opt_truthy [user_id; agent_id; run_id] = true ->
  exists kwargs,
    dict_lookup kwargs "user_id" = option_map VStr user_id /\
    dict_lookup kwargs "agent_id" = option_map VStr agent_id /\
    dict_lookup kwargs "run_id" = option_map VStr run_id /\
    backend_calls (snd (delete_entities w user_id agent_id None run_id ctx st)) =
    (backend_calls st ++
     if client_available w st then [client_delete_all kwargs] else [])%list.
Proof.
  intros Hscope. exists (delete_entities_payload user_id agent_id run_id).
  rewrite delete_entities_shape by exact Hscope. rewrite client_call_calls.
  unfold delete_entities_payload.
  destruct user_id, agent_id, run_id; repeat split; reflexivity.
Qed.

Lemma delete_entities_forwards_witness :
  exists kwargs,
    dict_lookup kwargs "user_id" = None /\
    dict_lookup kwargs "agent_id" = Some (VStr "planner") /\
    dict_lookup kwargs "run_id" = None /\
    backend_calls (snd (delete_entities quiet_world None (Some "planner") None None None
                          fresh)) =
    [client_delete_all kwargs].
Proof.
  apply (delete_entities_forwards quiet_world None (Some "planner") None None fresh).
  reflexivity.
Defined.

(** X17: [add_memory] with an empty text and no messages (none, or an
    empty list) returns the [messages_missing] error document and leaves
    the state as it was: no client is built and nothing reaches the
    backend. *)
Theorem add_memory_nothing_to_store (w : World) (messages : option (list (dict string)))
    (user_id agent_id app_id run_id : option string)
    (metadata : option (dict value)) (enable_graph : option bool)
    (ctx : option Context) (st : state) :
  messages = None \/ messages = Some [] ->
  add_memory w "" messages user_id agent_id app_id run_id metadata enable_graph ctx st =
  (inl (json_dumps w
          (VDict [("error", VStr "messages_missing");
                  ("detail",
                   VStr "Provide either `text` or `messages` so Mem0 knows what to store.")])),
   st).
Proof.
  intros Hnone.
  now rewrite (add_memory_run w _ _ _ _ _ _ _ _ _ _ _
                 (tool_messages_of_absent _ st Hnone)).
Qed.

Lemma add_memory_nothing_to_store_witness :
  add_memory bare_world "" (Some []) None None None None None None None fresh =
  (inl (json_dumps bare_world
          (VDict [("error", VStr "messages_missing");
                  ("detail",
                   VStr "Provide either `text` or `messages` so Mem0 knows what to store.")])),
   fresh).
Proof.
  apply (add_memory_nothing_to_store bare_world (Some []) None None None None None
           None None fresh).
  now right.
Defined.

(** X18: whatever [add_memory] calls on the client is an [add] whose
    keyword arguments are among [user_id], [agent_id], [run_id] and
    [metadata]: [text], [messages], [app_id] and [enable_graph] are never
    forwarded as keyword arguments, while [agent_id], [run_id] and
    [metadata] are forwarded as given. *)
Theorem add_memory_forwards (w : World) (text : string)
    (messages : option (list (dict string)))
    (user_id agent_id app_id run_id : option string)
    (metadata : option (dict value)) (enable_graph : option bool)
    (ctx : option Context) (st : state) :
  exists extra,
    backend_calls
      (snd (add_memory w text messages user_id agent_id app_id run_id
              metadata enable_graph ctx st)) =
    (backend_calls st ++ extra)%list /\
    Forall
      (fun c =>
         exists conversation kwargs,
           c = client_add conversation kwargs /\
           incl (dict_keys kwargs) ["user_id"; "agent_id"; "run_id"; "metadata"] /\
           dict_lookup kwargs "agent_id" = option_map VStr agent_id /\
           dict_lookup kwargs "run_id" = option_map VStr run_id /\
           dict_lookup kwargs "metadata" = option_map VDict metadata)
      extra.
Proof.
  set (kwargs := add_kwargs (fst (_resolve_settings w ctx)) user_id agent_id run_id metadata).
  assert (Hcall : forall conversation,
    exists extra,
      backend_calls
        (snd ((_ <- _mem0_client w ;;
               _mem0_call w (client_call w (client_add conversation kwargs))) st)) =
      (backend_calls st ++ extra)%list /\
      Forall
        (fun c =>
           exists conversation kwargs,
             c = client_add conversation kwargs /\
             incl (dict_keys kwargs) ["user_id"; "agent_id"; "run_id"; "metadata"] /\
             dict_lookup kwargs "agent_id" = option_map VStr agent_id /\
             dict_lookup kwargs "run_id" = option_map VStr run_id /\
             dict_lookup kwargs "metadata" = option_map VDict metadata)
        extra).
  { intros conversation. rewrite client_call_calls. eexists. split; [reflexivity|].
    destruct (client_available w st); [|apply Forall_nil].
    apply Forall_cons; [|apply Forall_nil].
    exists conversation, kwargs. split; [reflexivity | apply add_kwargs_keys]. }
  destruct (tool_messages_of_pure messages st) as [[tms|e] Hmsgs].
  - rewrite (add_memory_run w _ _ _ _ _ _ _ _ _ _ _ Hmsgs). cbv zeta. fold kwargs.
    destruct tms as [[|m ms]|]; try apply Hcall;
      destruct (str_truthy text); try apply Hcall;
      exists []; cbn [snd]; rewrite app_nil_r; split;
      solve [reflexivity | apply Forall_nil].
  - rewrite (add_memory_invalid w _ _ _ _ _ _ _ _ _ _ _ Hmsgs).
    exists []. cbn [snd]. rewrite app_nil_r. split; [reflexivity | apply Forall_nil].
Qed.

(** X19: a non-empty [user_id] given to [add_memory] is kept as it is,
    also next to an [agent_id] or a [run_id]: the payload then carries both
    scopes. *)
Theorem add_memory_explicit_user (w : World) (text : string)
    (messages : option (list (dict string)))
    (user_id agent_id app_id run_id : option string)
    (metadata : option (dict value)) (enable_graph : option bool)
    (ctx : option Context) (st : state) (tms : option (list ToolMessage)) :
  opt_truthy user_id = true ->
  client_available w st = true ->
  tool_messages_of messages st = (inl tms, st) ->
  (exists m ms, tms = Some (m :: ms)) \/ text <> "" ->
  exists conversation kwargs,
    backend_calls
      (snd (add_memory w text messages user_id agent_id app_id run_id
              metadata enable_graph ctx st)) =
    (backend_calls st ++ [client_add conversation kwargs])%list /\
    dict_lookup kwargs "user_id" = option_map VStr user_id /\
    dict_lookup kwargs "agent_id" = option_map VStr agent_id /\
    dict_lookup kwargs "run_id" = option_map VStr run_id.
Proof.
  intros Huser Hready Hmsgs Hstore.
  rewrite (add_memory_run w _ _ _ _ _ _ _ _ _ _ _ Hmsgs). cbv zeta.
  pose proof (add_kwargs_keys (fst (_resolve_settings w ctx)) user_id agent_id run_id
                metadata) as [_ [Hagent [Hrun _]]].
  pose proof (add_kwargs_explicit_user (fst (_resolve_settings w ctx)) user_id agent_id
                run_id metadata Huser) as Hkept.
  destruct tms as [[|m ms]|].
  - destruct Hstore as [[m [ms Hm]]|Htext]; [discriminate|].
    destruct text; [congruence|]. cbn [str_truthy].
    rewrite backend_run_last by exact Hready. eexists. eexists. repeat split; eassumption.
  - rewrite backend_run_last by exact Hready. eexists. eexists. repeat split; eassumption.
  - destruct Hstore as [[m [ms Hm]]|Htext]; [discriminate|].
    destruct text; [congruence|]. cbn [str_truthy].
    rewrite backend_run_last by exact Hready. eexists. eexists. repeat split; eassumption.
Qed.

Lemma add_memory_explicit_user_witness :
  exists conversation kwargs,
    backend_calls
      (snd (add_memory quiet_world "likes tea" None (Some "alice") (Some "planner") None
              None None None None fresh)) =
    [client_add conversation kwargs] /\
    dict_lookup kwargs "user_id" = Some (VStr "alice") /\
    dict_lookup kwargs "agent_id" = Some (VStr "planner") /\
    dict_lookup kwargs "run_id" = None.
Proof.
  apply (add_memory_explicit_user quiet_world "likes tea" None (Some "alice")
           (Some "planner") None None None None None fresh None).
  - reflexivity.
  - reflexivity.
  - reflexivity.
  - right. discriminate.
Defined.

(** ** Settings *)

(** X20: the resolved default owner is the session's [default_user_id]
    when that is set and not empty, otherwise the value of
    [MEM0_DEFAULT_USER_ID], otherwise ["mem0-mcp"]; it is never empty
    unless the environment variable is set to the empty string. *)
Theorem resolve_default_owner (w : World) (ctx : option Context) :
  fst (_resolve_settings w ctx) =
    match session_owner ctx with
    | Some (String c s) => String c s
    | _ =>
        match getenv w "MEM0_DEFAULT_USER_ID" with
        | Some s => s
        | None => "mem0-mcp"
        end
    end /\
  (getenv w "MEM0_DEFAULT_USER_ID" <> Some "" -> fst (_resolve_settings w ctx) <> "").
Proof.
  assert (Hfst : fst (_resolve_settings w ctx) =
    match session_owner ctx with
    | Some (String c s) => String c s
    | _ =>
        match getenv w "MEM0_DEFAULT_USER_ID" with
        | Some s => s
        | None => "mem0-mcp"
        end
    end).
  { unfold _resolve_settings, session_owner, _config_value, ENV_DEFAULT_USER_ID.
    destruct ctx as [[[[[[|c s]|] g]|]]|]; reflexivity. }
  split; [exact Hfst|]. rewrite Hfst. intros Henv.
  destruct (session_owner ctx) as [[|c s]|]; try discriminate;
    destruct (getenv w "MEM0_DEFAULT_USER_ID") as [[|c' s']|]; try discriminate;
    congruence.
Qed.

Lemma resolve_default_owner_witness :
  fst (_resolve_settings quiet_world
         (Some {| session_config :=
                    Some {| default_user_id := Some "";
                            enable_graph_default := None |} |})) <> "".
Proof.
  apply (proj2 (resolve_default_owner quiet_world _)). discriminate.
Defined.

(** ** Extraction and the client, once more *)

Section Dicts.

Context {A : Type}.

Lemma dict_lookup_set_same (d : dict A) (k : string) (v : A) :
  dict_lookup (dict_set d k v) k = Some v.
Proof.
  induction d as [|[k' v'] d IH]; simpl.
  - now rewrite String.eqb_refl.
  - destruct (String.eqb k' k) eqn:Hk; simpl; rewrite Hk; [reflexivity | exact IH].
Qed.

Lemma dict_lookup_set_other (d : dict A) (k k' : string) (v : A) :
  k <> k' -> dict_lookup (dict_set d k v) k' = dict_lookup d k'.
Proof.
  intros Hne. induction d as [|[k0 v0] d IH]; simpl.
  - destruct (String.eqb_spec k k'); [contradiction | reflexivity].
  - destruct (String.eqb_spec k0 k) as [->|Hk0]; simpl.
    + destruct (String.eqb_spec k k'); [contradiction | reflexivity].
    + destruct (String.eqb k0 k'); [reflexivity | exact IH].
Qed.

End Dicts.

(** X21: of the list under [in] only the first element counts: replacing
    the elements after it leaves the extracted id as it was. *)
Theorem extract_id_value_in_head (w : World) (entries : dict value) (first : value)
    (rest rest' : list value) :
  dict_lookup entries "in" = Some (VList (first :: rest)) ->
  _extract_id_value w (VDict (dict_set entries "in" (VList (first :: rest')))) =
  _extract_id_value w (VDict entries).
Proof.
  intros Hin. unfold _extract_id_value, dict_get. cbn [scalar_str].
  rewrite dict_lookup_set_same, Hin.
  rewrite dict_lookup_set_other by discriminate. reflexivity.
Qed.

Lemma extract_id_value_in_head_witness :
  _extract_id_value quiet_world
    (VDict (dict_set [("in", VList [VStr "john"; VStr "jane"])] "in"
              (VList [VStr "john"; VStr "mary"; VStr "zoe"]))) =
  _extract_id_value quiet_world (VDict [("in", VList [VStr "john"; VStr "jane"])]).
Proof.
  apply (extract_id_value_in_head quiet_world
           [("in", VList [VStr "john"; VStr "jane"])] (VStr "john") [VStr "jane"]
           [VStr "mary"; VStr "zoe"]).
  reflexivity.
Defined.

(** X22: a failed [_mem0_client] is not remembered.  The state is left as
    it was, so the environment is read again on the next call, which
    succeeds as soon as the key is there and the construction goes
    through. *)
Theorem mem0_client_retries (w w' : World) (st : state) (e : exn) :
  fst (_mem0_client w st) = inr e ->
  client_available w' st = true ->
  snd (_mem0_client w st) = st /\
  fst (_mem0_client w' (snd (_mem0_client w st))) = inl tt.
Proof.
  intros Hfail Hready.
  assert (Hst : snd (_mem0_client w st) = st).
  { destruct (client_available w st) eqn:Hw.
    - rewrite (mem0_client_available w st Hw) in Hfail. discriminate.
    - destruct (mem0_client_unavailable w st Hw) as [e' He']. now rewrite He'. }
  split; [exact Hst|]. rewrite Hst. now rewrite (mem0_client_available w' st Hready).
Qed.

Lemma mem0_client_retries_witness :
  snd (_mem0_client bare_world fresh) = fresh /\
  fst (_mem0_client quiet_world (snd (_mem0_client bare_world fresh))) = inl tt.
Proof.
  apply (mem0_client_retries bare_world quiet_world fresh missing_key_error); reflexivity.
Defined.

(** X23: [delete_entities] called with [app_id] set returns a structured
    error and leaves the state as it was: no client is built and the
    backend is not contacted.  The error is [unsupported_scope] whenever
    [app_id] is not empty, whatever the other scopes are. *)
Theorem delete_entities_rejects_app_scope (w : World)
    (user_id agent_id run_id : option string) (app : string)
    (ctx : option Context) (st : state) :
  (exists code detail,
      delete_entities w user_id agent_id (Some app) run_id ctx st =
      (inl (json_dumps w (VDict [("error", VStr code); ("detail", VStr detail)])), st)) /\
  (app <> "" ->
   delete_entities w user_id agent_id (Some app) run_id ctx st =
   (inl (json_dumps w
           (VDict [("error", VStr "unsupported_scope");
                   ("detail", VStr "app_id scope is not available in self-hosted mode")])),
    st)).
Proof.
  split.
  - unfold delete_entities, error_json.
    destruct (negb _); eexists; eexists; reflexivity.
  - intros Happ. unfold delete_entities, error_json. simpl.
    destruct app; [congruence|]. simpl.
    now rewrite !orb_true_r.
Qed.

Lemma delete_entities_rejects_app_scope_witness :
  delete_entities quiet_world (Some "alice") None (Some "app-1") None None fresh =
  (inl (json_dumps quiet_world
          (VDict [("error", VStr "unsupported_scope");
                  ("detail", VStr "app_id scope is not available in self-hosted mode")])),
   fresh).
Proof.
  apply (proj2 (delete_entities_rejects_app_scope quiet_world (Some "alice") None None
                  "app-1" None fresh)).
  discriminate.
Defined.
